(** * Dhandaa-AI: metrics, insights and persistence

    A shallow embedding of [data_manager.py], [config.py], [analytics.py],
    [auth.py] and the pages that call them, and the properties of the
    bookkeeping dashboard's metrics engine.

    Numbers.  The Python code computes amounts in binary64 floating point
    (Streamlit number inputs, pandas columns), and pandas holds quantities
    in an int64 column.  The analytics are embedded twice:

    - [Analytics] reads every amount as an exact rational ([Q]), with the
      thresholds 1.2, 0.8 and 0.3 as 12/10, 8/10 and 3/10.  It serves the
      properties that do not turn on rounding: which block emits what, what
      is compared with what, the integer and string rules.
    - [Binary64] reads every amount as the binary64 value the code holds
      ([PrimFloat.float], evaluated by the kernel), with the code's own
      operations in the code's own order.  It serves the properties that do
      turn on rounding: the trend and debt thresholds, the profit and the
      margin.

    Quantities are integers ([Z]); where pandas adds them in an int64
    column the wrap-around is written out ([wrap64]). *)

From Stdlib Require Import QArith Lqa ZArith List String Ascii.
From Stdlib Require Floats.
From stdpp Require Import gmap strings list.

Local Open Scope string_scope.
Local Open Scope list_scope.

(** ** config.py *)

Module Config.

(** [DATA_DIR / "sales.json"] and its siblings: the files are named by
    their paths. *)
Definition DATA_DIR : string := "data".
Definition path_join (dir name : string) : string :=
  String.append dir (String.append "/" name).

Definition USERS_FILE : string := path_join DATA_DIR "users.json".
Definition BUSINESSES_FILE : string := path_join DATA_DIR "businesses.json".
Definition SALES_FILE : string := path_join DATA_DIR "sales.json".
Definition INVENTORY_FILE : string := path_join DATA_DIR "inventory.json".
Definition ORDERS_FILE : string := path_join DATA_DIR "orders.json".
Definition DEBTS_FILE : string := path_join DATA_DIR "debts.json".

Definition ORDER_STATUSES : list string := ["Pending"; "Completed"; "Cancelled"].
Definition DEBT_STATUSES : list string := ["Pending"; "Partially Paid"; "Paid"].

(** Thresholds for insights. *)
Definition LOW_PROFIT_MARGIN_THRESHOLD : Q := 20 # 1.
Definition HIGH_PROFIT_MARGIN_THRESHOLD : Q := 40 # 1.
Definition DEBT_WARNING_RATIO : Q := 3 # 10.
Definition LOW_STOCK_THRESHOLD : Z := 10.
Definition SALES_GROWTH_THRESHOLD : Q := 12 # 10.
Definition SALES_DECLINE_THRESHOLD : Q := 8 # 10.

End Config.

(** ** data_manager.py

  The data manager never looks inside a row, so it is generic in the row
  type [R].  The file system is a finite map from paths to JSON documents;
  each document maps a username to that user's list of rows.  Every
  operation that writes returns the new file system next to its result. *)

Module DataManager.
Import Config.

Section Persistence.
Context {R : Type}.

Abbreviation document := (gmap string (list R)).
Abbreviation files := (gmap string (gmap string (list R))).

(** [load_json]: the file's content, or the empty object when the file
    does not exist. *)
Definition load_json (fs : files) (filepath : string) : document :=
  match fs !! filepath with
  | Some data => data
  | None => ∅
  end.

(** [save_json]: the file is overwritten. *)
Definition save_json (fs : files) (filepath : string) (data : document) : files :=
  <[filepath := data]> fs.

(** The [file_map] dictionary that the three accessors each build. *)
Definition file_map : gmap string string :=
  <["sales" := SALES_FILE]>
  (<["inventory" := INVENTORY_FILE]>
  (<["orders" := ORDERS_FILE]>
  (<["debts" := DEBTS_FILE]> ∅))).

Definition get_user_data (fs : files) (username data_type : string) : list R :=
  match file_map !! data_type with
  | None => []
  | Some filepath =>
      let data := load_json fs filepath in
      default [] (data !! username)
  end.

(** [all_data[username].append(new_data)] after the key was created when
    missing; the flag is the function's result, the file system its effect. *)
Definition save_user_data (fs : files) (username data_type : string)
    (new_data : R) : bool * files :=
  match file_map !! data_type with
  | None => (false, fs)
  | Some filepath =>
      let all_data := load_json fs filepath in
      let all_data :=
        match all_data !! username with
        | None => <[username := []]> all_data
        | Some _ => all_data
        end in
      let all_data := alter (λ rows, rows ++ [new_data]) username all_data in
      (true, save_json fs filepath all_data)
  end.

Definition update_user_data (fs : files) (username data_type : string)
    (updated_list : list R) : bool * files :=
  match file_map !! data_type with
  | None => (false, fs)
  | Some filepath =>
      let all_data := load_json fs filepath in
      let all_data := <[username := updated_list]> all_data in
      (true, save_json fs filepath all_data)
  end.

End Persistence.

(** The data types the accessors know: the keys of [file_map]. *)
Definition known_data_types : list string :=
  ["sales"; "inventory"; "orders"; "debts"].

End DataManager.

(** ** The rows of the four collections

    Each row is the dictionary built by the form of its page ([sales.py],
    [inventory.py], [orders.py], [debts.py]); the fields keep the keys of
    those dictionaries.  A date is written to JSON as ISO text and read back
    by [pd.to_datetime]; here it is kept as the calendar date it denotes. *)

Record Date := { year : Z; month : Z; day : Z }.

Module Sale.
Record t := {
  id : Z;
  product : string;
  quantity : Z;
  unit_price : Q;
  total_amount : Q;
  cost : Q;
  profit : Q;
  customer : string;
  date : Date
}.
End Sale.

Module Item.
Record t := {
  id : Z;
  name : string;
  quantity : Z;
  unit_price : Q;
  category : string;
  reorder_level : Z;
  supplier : string;
  notes : string;
  added_date : Date
}.
End Item.

Module Order.
Record t := {
  id : Z;
  description : string;
  amount : Q;
  customer : string;
  status : string;
  order_date : Date;
  due_date : Date;
  notes : string
}.
End Order.

Module Debt.
Record t := {
  id : Z;
  debtor : string;
  amount : Q;
  type : string;
  status : string;
  debt_date : Date;
  due_date : Date;
  notes : string
}.
End Debt.

(** ** Numbers and columns *)

Module Num.

Definition Qltb (x y : Q) : bool := negb (Qle_bool y x).

(** The built-in [sum] and the pandas column [.sum()]: a left fold from 0. *)
Definition sum (xs : list Q) : Q := fold_left Qplus xs 0%Q.

Definition sumZ (xs : list Z) : Z := fold_left Z.add xs 0%Z.

(** An int64 value, and the int64 result of an addition that wraps around. *)
Definition int64 (z : Z) : Prop := (- 2 ^ 63 <= z < 2 ^ 63)%Z.

Definition wrap64 (z : Z) : Z := ((z + 2 ^ 63) mod 2 ^ 64 - 2 ^ 63)%Z.

(** [.mean()] of a column. *)
Definition mean (xs : list Q) : Q := (sum xs / inject_Z (Z.of_nat (length xs)))%Q.

(** [df.head(n)] and [df.tail(n)]. *)
Definition head {A} (n : nat) (rows : list A) : list A := take n rows.
Definition tail {A} (n : nat) (rows : list A) : list A := drop (length rows - n) rows.

(** The value of a numpy [float64] expression that may have divided by
    zero: numpy warns and yields an infinity or NaN, it does not raise. *)
Inductive float64 :=
| Finite (q : Q)
| Inf (negative : bool)
| NaN.

Definition np_div (x y : Q) : float64 :=
  if Qeq_bool y 0 then
    if Qltb 0 x then Inf false
    else if Qltb x 0 then Inf true
    else NaN
  else Finite (x / y).

Definition np_sub (x : float64) (c : Q) : float64 :=
  match x with
  | Finite q => Finite (q - c)
  | other => other
  end.

Definition np_mul (x : float64) (c : Q) : float64 :=
  match x with
  | Finite q => Finite (q * c)
  | Inf s =>
      if Qltb 0 c then Inf s
      else if Qltb c 0 then Inf (negb s)
      else NaN
  | NaN => NaN
  end.

End Num.

(** ** analytics.py *)

Module Analytics.
Import Config DataManager Num.

(** The persisted state as the analytics code reads it: one typed view of
    the file system per collection, since each JSON file holds rows of one
    shape. *)
Record Store := {
  sales_files : gmap string (gmap string (list Sale.t));
  inventory_files : gmap string (gmap string (list Item.t));
  orders_files : gmap string (gmap string (list Order.t));
  debts_files : gmap string (gmap string (list Debt.t))
}.

(** The dictionary returned by [calculate_metrics]. *)
Record Metrics := {
  total_revenue : Q;
  total_profit : Q;
  profit_margin : Q;
  inventory_value : Q;
  pending_orders : Q;
  total_debts : Q;
  sales_df : list Sale.t;
  total_sales_count : nat
}.

(** The values a metrics dictionary holds, and its key/value pairs in the
    order of the dictionary literal. *)
Inductive value :=
| VNum (q : Q)
| VCount (n : nat)
| VFrame (rows : list Sale.t).

Definition metrics_items (m : Metrics) : list (string * value) :=
  [ ("total_revenue", VNum (total_revenue m));
    ("total_profit", VNum (total_profit m));
    ("profit_margin", VNum (profit_margin m));
    ("inventory_value", VNum (inventory_value m));
    ("pending_orders", VNum (pending_orders m));
    ("total_debts", VNum (total_debts m));
    ("sales_df", VFrame (sales_df m));
    ("total_sales_count", VCount (total_sales_count m)) ].

(** [key in metrics] and [metrics[key]] on the returned dictionary. *)
Fixpoint dict_get (key : string) (items : list (string * value)) : option value :=
  match items with
  | [] => None
  | (k, v) :: rest => if String.eqb k key then Some v else dict_get key rest
  end.

Definition is_empty {A} (rows : list A) : bool :=
  match rows with
  | [] => true
  | _ :: _ => false
  end.

Definition calculate_metrics (st : Store) (username : string) : option Metrics :=
  let sales := get_user_data (sales_files st) username "sales" in
  let inventory := get_user_data (inventory_files st) username "inventory" in
  let orders := get_user_data (orders_files st) username "orders" in
  let debts := get_user_data (debts_files st) username "debts" in
  if is_empty sales then None
  else
    let sales_df := sales in
    let total_revenue := sum (map Sale.total_amount sales_df) in
    let total_cost := sum (map Sale.cost sales_df) in
    let total_profit := (total_revenue - total_cost)%Q in
    let profit_margin :=
      if Qltb 0 total_revenue then (total_profit / total_revenue * 100)%Q
      else 0%Q in
    let inventory_value :=
      sum (map (λ item, inject_Z (Item.quantity item) * Item.unit_price item)%Q
               inventory) in
    let pending_orders_value :=
      sum (map Order.amount
               (List.filter (λ order, String.eqb (Order.status order) "Pending")
                            orders)) in
    let total_debts :=
      sum (map Debt.amount
               (List.filter (λ debt, String.eqb (Debt.status debt) "Pending")
                            debts)) in
    Some {| total_revenue := total_revenue;
            total_profit := total_profit;
            profit_margin := profit_margin;
            inventory_value := inventory_value;
            pending_orders := pending_orders_value;
            total_debts := total_debts;
            sales_df := sales_df;
            total_sales_count := length sales |}.

(** [groupby('product')['quantity'].sum()]: one entry per product, the
    entries in ascending order of the product name, each with the total
    quantity of its rows.  The quantity column is int64 (the stored
    quantities fit), and its sums wrap around. *)
Fixpoint group_add (key : string) (q : Z) (groups : list (string * Z))
    : list (string * Z) :=
  match groups with
  | [] => [(key, q)]
  | (k, total) :: rest =>
      match String.compare key k with
      | Eq => (k, wrap64 (total + q)) :: rest
      | Lt => (key, q) :: groups
      | Gt => (k, total) :: group_add key q rest
      end
  end.

Definition groupby_sum (rows : list Sale.t) : list (string * Z) :=
  fold_left (λ groups row, group_add (Sale.product row) (Sale.quantity row) groups)
            rows [].

(** [.sort_values(ascending=False)]: the entries by decreasing total.  Among
    equal totals pandas' default sort leaves the order unspecified; this
    sort keeps them in their order of arrival, and no property below
    depends on that choice. *)
Fixpoint insert_desc (entry : string * Z) (sorted : list (string * Z))
    : list (string * Z) :=
  match sorted with
  | [] => [entry]
  | e :: rest =>
      if (e.2 <=? entry.2)%Z then entry :: sorted
      else e :: insert_desc entry rest
  end.

Definition sort_values_desc (entries : list (string * Z)) : list (string * Z) :=
  foldr insert_desc [] entries.

(** [sales_df['product'].nunique()]. *)
Definition nunique (column : list string) : nat := length (remove_dups column).

(** An f-string: its literal text and the values it interpolates, in order.
    [Text] is literal text or an interpolated string, [Int] an integer,
    [Fixed1] a number under the format [:.1f] and [Money] a number under
    [:,.2f], each also for a binary64 number; the rendered message is the
    concatenation of the rendered pieces. *)
Inductive fragment :=
| Text (s : string)
| Int (n : Z)
| Fixed1 (x : float64)
| Money (q : Q)
| Fixed1_binary64 (x : PrimFloat.float)
| Money_binary64 (x : PrimFloat.float).

Record Insight := {
  type : string;
  title : string;
  message : list fragment
}.

(** The six blocks of [generate_insights], in the order of the source.  Each
    takes the list built so far and returns it, with its insight appended
    when its condition holds. *)

(* Insight 1: Best selling products *)
Definition best_selling_products (sales_df : list Sale.t) (insights : list Insight)
    : list Insight :=
  if negb (is_empty sales_df) then
    let product_sales := sort_values_desc (groupby_sum sales_df) in
    match product_sales with
    | (top_product, top_quantity) :: _ =>
        insights ++
        [ {| type := "success";
             title := "🏆 Top Performer";
             message := [ Text "'"; Text top_product;
                          Text "' is your best-seller with ";
                          Int top_quantity; Text " units sold!" ] |} ]
    | [] => insights
    end
  else insights.

(* Insight 2: Profit margin analysis *)
Definition profit_margin_analysis (metrics : Metrics) (insights : list Insight)
    : list Insight :=
  if Qltb (profit_margin metrics) LOW_PROFIT_MARGIN_THRESHOLD then
    insights ++
    [ {| type := "warning";
         title := "⚠️ Low Profit Margin";
         message := [ Text "Your profit margin is ";
                      Fixed1 (Finite (profit_margin metrics));
                      Text "%. Consider reviewing pricing or reducing costs." ] |} ]
  else if Qltb HIGH_PROFIT_MARGIN_THRESHOLD (profit_margin metrics) then
    insights ++
    [ {| type := "success";
         title := "💰 Excellent Margins";
         message := [ Text "Outstanding profit margin of ";
                      Fixed1 (Finite (profit_margin metrics));
                      Text "%! Keep up the good work." ] |} ]
  else insights.

(* Insight 3: Sales trends *)
Definition sales_trends (sales_df : list Sale.t) (insights : list Insight)
    : list Insight :=
  if (7 <? length sales_df)%nat then
    let recent_sales := mean (map Sale.total_amount (tail 7 sales_df)) in
    let older_sales := mean (map Sale.total_amount (head 7 sales_df)) in
    if Qltb (older_sales * SALES_GROWTH_THRESHOLD) recent_sales then
      let growth_pct := np_mul (np_sub (np_div recent_sales older_sales) 1) 100 in
      insights ++
      [ {| type := "success";
           title := "📈 Growth Trend";
           message := [ Text "Sales are trending up! Recent average is ";
                        Fixed1 growth_pct; Text "% higher." ] |} ]
    else if Qltb recent_sales (older_sales * SALES_DECLINE_THRESHOLD) then
      insights ++
      [ {| type := "warning";
           title := "📉 Declining Sales";
           message := [ Text "Sales have decreased recently. Consider promotional activities or customer outreach." ] |} ]
    else insights
  else insights.

(* Insight 4: Debt management *)
Definition debt_management (metrics : Metrics) (insights : list Insight)
    : list Insight :=
  if Qltb (total_revenue metrics * DEBT_WARNING_RATIO) (total_debts metrics) then
    insights ++
    [ {| type := "error";
         title := "💳 High Debt Alert";
         message := [ Text "Pending debts (₹"; Money (total_debts metrics);
                      Text ") are over 30% of revenue. Prioritize collections." ] |} ]
  else insights.

(* Insight 5: Inventory insights *)
Definition inventory_insights (inventory : list Item.t) (insights : list Insight)
    : list Insight :=
  let low_stock :=
    List.filter (λ item, (Item.quantity item <? LOW_STOCK_THRESHOLD)%Z) inventory in
  if negb (is_empty low_stock) then
    let product_names := String.concat ", " (map Item.name (take 3 low_stock)) in
    let more_text :=
      if (3 <? length low_stock)%nat then
        [ Text " and "; Int (Z.of_nat (length low_stock) - 3); Text " more" ]
      else [] in
    insights ++
    [ {| type := "warning";
         title := "📦 Low Stock Alert";
         message := [ Int (Z.of_nat (length low_stock));
                      Text " item(s) running low. Restock: ";
                      Text product_names ] ++ more_text |} ]
  else insights.

(* Insight 6: Product diversity *)
Definition product_diversity (sales_df : list Sale.t) (insights : list Insight)
    : list Insight :=
  if negb (is_empty sales_df) then
    let unique_products := nunique (map Sale.product sales_df) in
    if (unique_products <? 3)%nat then
      insights ++
      [ {| type := "info";
           title := "🎯 Product Diversity";
           message := [ Text "You're selling ";
                        Int (Z.of_nat unique_products);
                        Text " product(s). Consider expanding your product range to attract more customers." ] |} ]
    else insights
  else insights.

Definition generate_insights (st : Store) (username : string) : list Insight :=
  match calculate_metrics st username with
  | None => []
  | Some metrics =>
      let insights := [] in
      let sales_df := sales_df metrics in
      let insights := best_selling_products sales_df insights in
      let insights := profit_margin_analysis metrics insights in
      let insights := sales_trends sales_df insights in
      let insights := debt_management metrics insights in
      let inventory := get_user_data (inventory_files st) username "inventory" in
      let insights := inventory_insights inventory insights in
      let insights := product_diversity sales_df insights in
      insights
  end.

Definition predict_monthly_revenue (st : Store) (username : string) : Q :=
  match calculate_metrics st username with
  | None => 0%Q
  | Some metrics =>
      let sales_df := sales_df metrics in
      if (length sales_df <? 7)%nat then 0%Q
      else
        let recent_avg := mean (map Sale.total_amount (tail 7 sales_df)) in
        (recent_avg * 30)%Q
  end.

End Analytics.

(** ** The rows the forms write

    [add_sale_form], [add_inventory_form], [add_order_form] and
    [add_debt_form] build the row that [save_user_data] appends; the derived
    fields of a sale are computed there. *)

Module Forms.
Import DataManager.

Definition sale_data (sales : list Sale.t) (product : string) (quantity : Z)
    (unit_price cost_per_unit : Q) (sale_date : Date) (customer_name : string)
    : Sale.t :=
  let total_amount := (inject_Z quantity * unit_price)%Q in
  let total_cost := (inject_Z quantity * cost_per_unit)%Q in
  let profit := (total_amount - total_cost)%Q in
  {| Sale.id := Z.of_nat (length sales) + 1;
     Sale.product := product;
     Sale.quantity := quantity;
     Sale.unit_price := unit_price;
     Sale.total_amount := total_amount;
     Sale.cost := total_cost;
     Sale.profit := profit;
     Sale.customer := if String.eqb customer_name "" then "N/A" else customer_name;
     Sale.date := sale_date |}.

Definition inventory_data (inventory : list Item.t) (item_name : string)
    (quantity : Z) (unit_price : Q) (category : string) (reorder_level : Z)
    (supplier notes : string) (today : Date) : Item.t :=
  {| Item.id := Z.of_nat (length inventory) + 1;
     Item.name := item_name;
     Item.quantity := quantity;
     Item.unit_price := unit_price;
     Item.category := category;
     Item.reorder_level := reorder_level;
     Item.supplier := if String.eqb supplier "" then "N/A" else supplier;
     Item.notes := notes;
     Item.added_date := today |}.

Definition debt_data (debts : list Debt.t) (debtor_name : string) (amount : Q)
    (debt_type status : string) (debt_date due_date : Date) (notes : string)
    : Debt.t :=
  {| Debt.id := Z.of_nat (length debts) + 1;
     Debt.debtor := debtor_name;
     Debt.amount := amount;
     Debt.type := debt_type;
     Debt.status := status;
     Debt.debt_date := debt_date;
     Debt.due_date := due_date;
     Debt.notes := notes |}.

(** The sales after the form was submitted once per entry of [entries],
    each a product, a quantity, a unit price, a unit cost and a sale date. *)
Definition record_sales (entries : list (string * Z * Q * Q * Date)) : list Sale.t :=
  fold_left
    (λ sales '(product, quantity, unit_price, cost_per_unit, sale_date),
       sales ++ [sale_data sales product quantity unit_price cost_per_unit
                           sale_date ""])
    entries [].

(** Items added one by one: a name, a quantity and a reorder level each. *)
Definition record_items (entries : list (string * Z * Z)) : list Item.t :=
  fold_left
    (λ inventory '(item_name, quantity, reorder_level),
       inventory ++ [inventory_data inventory item_name quantity (1 # 1) "Other"
                                    reorder_level "" "" {| year := 2024; month := 1; day := 1 |}])
    entries [].

(** Debts added one by one: a debtor, an amount and a status each. *)
Definition record_debts (entries : list (string * Q * string)) : list Debt.t :=
  fold_left
    (λ debts '(debtor_name, amount, status),
       debts ++ [debt_data debts debtor_name amount "Receivable (They owe you)" status
                           {| year := 2024; month := 1; day := 1 |}
                           {| year := 2024; month := 1; day := 31 |} ""])
    entries [].

(** A file system in which one user owns the given collections. *)
Definition store_of (username : string) (sales : list Sale.t)
    (inventory : list Item.t) (orders : list Order.t) (debts : list Debt.t)
    : Analytics.Store :=
  {| Analytics.sales_files := {[ Config.SALES_FILE := {[ username := sales ]} ]};
     Analytics.inventory_files := {[ Config.INVENTORY_FILE := {[ username := inventory ]} ]};
     Analytics.orders_files := {[ Config.ORDERS_FILE := {[ username := orders ]} ]};
     Analytics.debts_files := {[ Config.DEBTS_FILE := {[ username := debts ]} ]} |}.

End Forms.

(** ** The vocabulary of the properties

    How an insight of each kind is recognised in the returned list, and the
    notions the specification uses that the code does not compute. *)

Module Reading.
Import Analytics.

Definition is_insight (severity heading : string) (i : Insight) : bool :=
  String.eqb (type i) severity && String.eqb (title i) heading.

Definition top_performer_message : Insight → bool := is_insight "success" "🏆 Top Performer".
Definition low_margin_warning : Insight → bool := is_insight "warning" "⚠️ Low Profit Margin".
Definition high_margin_message : Insight → bool := is_insight "success" "💰 Excellent Margins".
Definition growth_message : Insight → bool := is_insight "success" "📈 Growth Trend".
Definition decline_warning : Insight → bool := is_insight "warning" "📉 Declining Sales".
Definition debt_alert : Insight → bool := is_insight "error" "💳 High Debt Alert".
Definition low_stock_warning : Insight → bool := is_insight "warning" "📦 Low Stock Alert".
Definition diversity_suggestion : Insight → bool := is_insight "info" "🎯 Product Diversity".

(** The list contains an insight of the kind; how many of the kind it has. *)
Definition contains (kind : Insight → bool) (insights : list Insight) : Prop :=
  existsb kind insights = true.

Definition count (kind : Insight → bool) (insights : list Insight) : nat :=
  length (List.filter kind insights).

(** The six rules, and the insights each one can emit. *)
Inductive Rule :=
| TopPerformer
| MarginCheck
| TrendCheck
| DebtCheck
| LowStock
| DiversityCheck.

Definition all_rules : list Rule :=
  [TopPerformer; MarginCheck; TrendCheck; DebtCheck; LowStock; DiversityCheck].

Definition emitted_by (rule : Rule) (i : Insight) : bool :=
  match rule with
  | TopPerformer => top_performer_message i
  | MarginCheck => low_margin_warning i || high_margin_message i
  | TrendCheck => growth_message i || decline_warning i
  | DebtCheck => debt_alert i
  | LowStock => low_stock_warning i
  | DiversityCheck => diversity_suggestion i
  end.

Definition severities : list string := ["success"; "warning"; "error"; "info"].

(** The items below the configured threshold (what the insight lists), and
    the items below their own reorder level (what the inventory page flags). *)
Definition below_threshold (inventory : list Item.t) : list Item.t :=
  List.filter (λ item, (Item.quantity item <? Config.LOW_STOCK_THRESHOLD)%Z) inventory.

Definition below_reorder_level (inventory : list Item.t) : list Item.t :=
  List.filter (λ item, (Item.quantity item <? Item.reorder_level item)%Z) inventory.

(** The pending debts of a user. *)
Definition pending_debts (debts : list Debt.t) : Q :=
  Num.sum (map Debt.amount
               (List.filter (λ debt, String.eqb (Debt.status debt) "Pending") debts)).

(** Calendar order on dates, and the sales in date order: a stable sort, so
    sales of one day stay in their stored order. *)
Definition date_leb (a b : Date) : bool :=
  (year a <? year b)%Z
  || ((year a =? year b)%Z
      && ((month a <? month b)%Z
          || ((month a =? month b)%Z && (day a <=? day b)%Z))).

Fixpoint insert_by_date (s : Sale.t) (sorted : list Sale.t) : list Sale.t :=
  match sorted with
  | [] => [s]
  | x :: rest =>
      if date_leb (Sale.date s) (Sale.date x) then s :: sorted
      else x :: insert_by_date s rest
  end.

Definition in_date_order (sales : list Sale.t) : list Sale.t :=
  foldr insert_by_date [] sales.

(** The [n] most recent sales in date order. *)
Definition most_recent_by_date (n : nat) (sales : list Sale.t) : list Sale.t :=
  Num.tail n (in_date_order sales).

(** The stored order is already date order. *)
Fixpoint stored_in_date_order (sales : list Sale.t) : Prop :=
  match sales with
  | [] => True
  | s :: rest =>
      match rest with
      | [] => True
      | x :: _ => date_leb (Sale.date s) (Sale.date x) = true
      end ∧ stored_in_date_order rest
  end.

(** What the six blocks append, for the metrics [m] of the user. *)
Definition blocks (st : Store) (username : string) (m : Metrics)
    : list (list Insight) :=
  [ best_selling_products (sales_df m) [];
    profit_margin_analysis m [];
    sales_trends (sales_df m) [];
    debt_management m [];
    inventory_insights (DataManager.get_user_data (inventory_files st) username "inventory") [];
    product_diversity (sales_df m) [] ].

End Reading.

(** ** Sample shops

    Concrete file systems, built through the forms, on which the properties
    below are run. *)

Module Examples.
Import Forms.

Definition jan (d : Z) : Date := {| year := 2024; month := 1; day := d |}.

(** A new account: stock and a debt are recorded, no sale yet. *)
Definition new_account : Analytics.Store :=
  store_of "asha" []
    (record_items [("rice", 2%Z, 10%Z); ("oil", 40%Z, 10%Z)])
    []
    (record_debts [("ravi", 250 # 1, "Pending")]).

(** Three sales of two products, sold at twice their cost. *)
Definition small_shop : Analytics.Store :=
  store_of "asha"
    (record_sales [ ("tea", 2%Z, 50 # 1, 25 # 1, jan 1);
                    ("soap", 1%Z, 40 # 1, 20 # 1, jan 2);
                    ("tea", 3%Z, 50 # 1, 25 # 1, jan 3) ])
    [] [] [].


(** Ten sales whose first seven average 100 and whose last seven average
    150. *)
Definition growing_shop : Analytics.Store :=
  store_of "asha"
    (record_sales [ ("tea", 1%Z, 100 # 1, 70 # 1, jan 1); ("tea", 1%Z, 100 # 1, 70 # 1, jan 2);
                    ("tea", 1%Z, 100 # 1, 70 # 1, jan 3); ("tea", 1%Z, 100 # 1, 70 # 1, jan 4);
                    ("tea", 1%Z, 100 # 1, 70 # 1, jan 5); ("tea", 1%Z, 100 # 1, 70 # 1, jan 6);
                    ("tea", 1%Z, 100 # 1, 70 # 1, jan 7); ("tea", 2%Z, 100 # 1, 70 # 1, jan 8);
                    ("tea", 2%Z, 100 # 1, 70 # 1, jan 9); ("soap", 1%Z, 250 # 1, 175 # 1, jan 10) ])
    [] [] [].

(** Eight sales of which the last one entered is dated before all the
    others: seven of 10 on 2 to 8 January, then one of 80 dated 1 January. *)
Definition backdated_shop : Analytics.Store :=
  store_of "asha"
    (record_sales [ ("tea", 1%Z, 10 # 1, 5 # 1, jan 2); ("tea", 1%Z, 10 # 1, 5 # 1, jan 3);
                    ("tea", 1%Z, 10 # 1, 5 # 1, jan 4); ("tea", 1%Z, 10 # 1, 5 # 1, jan 5);
                    ("tea", 1%Z, 10 # 1, 5 # 1, jan 6); ("tea", 1%Z, 10 # 1, 5 # 1, jan 7);
                    ("tea", 1%Z, 10 # 1, 5 # 1, jan 8); ("soap", 1%Z, 80 # 1, 40 # 1, jan 1) ])
    [] [] [].

(** Five items with the default reorder level of 10, four of them below
    10 units. *)
Definition understocked_shop : Analytics.Store :=
  store_of "asha"
    (record_sales [ ("tea", 2%Z, 50 # 1, 25 # 1, jan 1) ])
    (record_items [ ("rice", 2%Z, 10%Z); ("oil", 40%Z, 10%Z); ("salt", 0%Z, 10%Z);
                    ("soap", 9%Z, 10%Z); ("tea", 5%Z, 10%Z) ])
    [] [].

(** One item holding 12 units with a reorder level of 20. *)
Definition high_reorder_shop : Analytics.Store :=
  store_of "asha"
    (record_sales [ ("tea", 2%Z, 50 # 1, 25 # 1, jan 1) ])
    (record_items [ ("rice", 12%Z, 20%Z) ])
    [] [].

(** One item holding 5 units with a reorder level of 3. *)
Definition low_reorder_shop : Analytics.Store :=
  store_of "asha"
    (record_sales [ ("tea", 2%Z, 50 # 1, 25 # 1, jan 1) ])
    (record_items [ ("salt", 5%Z, 3%Z) ])
    [] [].

(** A shop on which all six rules fire: one product sold at a thin margin,
    a last sale four times the usual one, a large pending debt and an item
    almost out of stock. *)
Definition troubled_shop : Analytics.Store :=
  store_of "asha"
    (record_sales [ ("tea", 1%Z, 5 # 1, 9 # 2, jan 1); ("tea", 1%Z, 5 # 1, 9 # 2, jan 2);
                    ("tea", 1%Z, 5 # 1, 9 # 2, jan 3); ("tea", 1%Z, 5 # 1, 9 # 2, jan 4);
                    ("tea", 1%Z, 5 # 1, 9 # 2, jan 5); ("tea", 1%Z, 5 # 1, 9 # 2, jan 6);
                    ("tea", 1%Z, 5 # 1, 9 # 2, jan 7); ("tea", 4%Z, 5 # 1, 9 # 2, jan 8) ])
    (record_items [ ("tea", 2%Z, 10%Z) ])
    []
    (record_debts [ ("ravi", 100 # 1, "Pending") ]).

(** A file system that holds a sales file, and the data type "users", which
    the accessors do not know. *)
Definition sample_files : gmap string (gmap string (list nat)) :=
  {[ Config.SALES_FILE := {[ "asha" := [1; 2] ]} ]}.

End Examples.

(** ** JSON files of any shape

    [load_json] and [save_json] of [data_manager.py] at an arbitrary value
    type: the users file maps a username to an account, the businesses file
    to a business, the four collections to a list of rows. *)

Module Json.

Section Documents.
Context {V : Type}.

Definition load_json (fs : gmap string (gmap string V)) (filepath : string)
    : gmap string V :=
  match fs !! filepath with
  | Some data => data
  | None => ∅
  end.

Definition save_json (fs : gmap string (gmap string V)) (filepath : string)
    (data : gmap string V) : gmap string (gmap string V) :=
  <[filepath := data]> fs.

(** [filepath.exists()]. *)
Definition file_exists (fs : gmap string (gmap string V)) (filepath : string) : bool :=
  match fs !! filepath with
  | Some _ => true
  | None => false
  end.

End Documents.

End Json.

(** ** auth.py, and [init_data_files] of data_manager.py *)

Module Account.
Record t := {
  password : string;
  type : string;
  business_name : option string;
  business_type : option string;
  created_at : string
}.
End Account.

Module Business.
Record t := {
  name : string;
  type : string;
  created_at : string
}.
End Business.

Module Auth.
Import Config Json.

Definition DEFAULT_ADMIN_USERNAME : string := "admin".
Definition DEFAULT_ADMIN_PASSWORD : string := "admin123".

(** Everything the application persists: the users file, the businesses
    file and the four collections. *)
Record Disk := {
  users_files : gmap string (gmap string Account.t);
  businesses_files : gmap string (gmap string Business.t);
  data_files : Analytics.Store
}.

(** [data = load_json(file); data[username] = []; save_json(file, data)]. *)
Definition reset_collection {R} (fs : gmap string (gmap string (list R)))
    (file username : string) : gmap string (gmap string (list R)) :=
  let data := load_json fs file in
  let data := <[username := []]> data in
  save_json fs file data.

(** [if not file.exists(): save_json(file, {})]. *)
Definition create_if_missing {V} (fs : gmap string (gmap string V)) (file : string)
    : gmap string (gmap string V) :=
  if negb (file_exists fs file) then save_json fs file ∅ else fs.

Section Hashing.

(** [hashlib.sha256(password.encode()).hexdigest()]: the digest is a
    function of the password, and nothing else about it is used. *)
Variable hash_password : string → string.

Definition login_user (d : Disk) (username password : string)
    : bool * option string * option string :=
  let users := load_json (users_files d) USERS_FILE in
  match users !! username with
  | Some account =>
      if String.eqb (Account.password account) (hash_password password) then
        (true, Some (Account.type account),
         Some (default "Admin" (Account.business_name account)))
      else (false, None, None)
  | None => (false, None, None)
  end.

(** [now_user] and [now_business] are the two readings of
    [str(datetime.now())]. *)
Definition register_user (d : Disk)
    (username password business_name business_type : string)
    (now_user now_business : string) : (bool * string) * Disk :=
  let users := load_json (users_files d) USERS_FILE in
  match users !! username with
  | Some _ => ((false, "Username already exists"), d)
  | None =>
      (* Create user account *)
      let users :=
        <[username := {| Account.password := hash_password password;
                         Account.type := "user";
                         Account.business_name := Some business_name;
                         Account.business_type := Some business_type;
                         Account.created_at := now_user |}]> users in
      let users_files := save_json (users_files d) USERS_FILE users in
      (* Initialize business data *)
      let businesses := load_json (businesses_files d) BUSINESSES_FILE in
      let businesses :=
        <[username := {| Business.name := business_name;
                         Business.type := business_type;
                         Business.created_at := now_business |}]> businesses in
      let businesses_files := save_json (businesses_files d) BUSINESSES_FILE businesses in
      (* Initialize empty data collections for this user *)
      let st := data_files d in
      let st :=
        {| Analytics.sales_files :=
             reset_collection (Analytics.sales_files st) SALES_FILE username;
           Analytics.inventory_files :=
             reset_collection (Analytics.inventory_files st) INVENTORY_FILE username;
           Analytics.orders_files :=
             reset_collection (Analytics.orders_files st) ORDERS_FILE username;
           Analytics.debts_files :=
             reset_collection (Analytics.debts_files st) DEBTS_FILE username |} in
      ((true, "Registration successful!"),
       {| users_files := users_files;
          businesses_files := businesses_files;
          data_files := st |})
  end.

Definition init_data_files (d : Disk) (now : string) : Disk :=
  (* Initialize users file with admin account *)
  let users_files :=
    if negb (file_exists (users_files d) USERS_FILE) then
      save_json (users_files d) USERS_FILE
        {[ DEFAULT_ADMIN_USERNAME :=
             {| Account.password := hash_password DEFAULT_ADMIN_PASSWORD;
                Account.type := "admin";
                Account.business_name := None;
                Account.business_type := None;
                Account.created_at := now |} ]}
    else users_files d in
  (* Initialize other data files *)
  let st := data_files d in
  {| users_files := users_files;
     businesses_files := create_if_missing (businesses_files d) BUSINESSES_FILE;
     data_files :=
       {| Analytics.sales_files :=
            create_if_missing (Analytics.sales_files st) SALES_FILE;
          Analytics.inventory_files :=
            create_if_missing (Analytics.inventory_files st) INVENTORY_FILE;
          Analytics.orders_files :=
            create_if_missing (Analytics.orders_files st) ORDERS_FILE;
          Analytics.debts_files :=
            create_if_missing (Analytics.debts_files st) DEBTS_FILE |} |}.

End Hashing.

(** [admin_dashboard.py]: the accounts of type user, which are the
    businesses the admin panel lists. *)
Definition user_list (d : Disk) : gmap string Account.t :=
  filter (λ entry, Account.type entry.2 = "user")
         (load_json (users_files d) USERS_FILE).

(** A disk on which no file exists yet. *)
Definition blank_disk : Disk :=
  {| users_files := ∅;
     businesses_files := ∅;
     data_files := {| Analytics.sales_files := ∅;
                      Analytics.inventory_files := ∅;
                      Analytics.orders_files := ∅;
                      Analytics.debts_files := ∅ |} |}.

End Auth.

(** ** The pages: what a submitted form writes, what a page shows

    The branch [if submitted:] of each form, given the values of its
    widgets.  The result says whether the row was accepted (the success
    message) or refused (the error message), next to the store left. *)

Module Pages.
Import Config DataManager Num Analytics.

Definition with_sales (st : Store) (fs : gmap string (gmap string (list Sale.t)))
    : Store :=
  {| sales_files := fs;
     inventory_files := inventory_files st;
     orders_files := orders_files st;
     debts_files := debts_files st |}.

Definition with_inventory (st : Store)
    (fs : gmap string (gmap string (list Item.t))) : Store :=
  {| sales_files := sales_files st;
     inventory_files := fs;
     orders_files := orders_files st;
     debts_files := debts_files st |}.



(** A Python string is true when it is not empty. *)
Definition filled (s : string) : bool := negb (String.eqb s "").

(* sales.py *)
Definition add_sale_form (st : Store) (username product : string) (quantity : Z)
    (unit_price cost_per_unit : Q) (sale_date : Date) (customer_name : string)
    : bool * Store :=
  if filled product && Qltb 0 unit_price then
    let sale_data :=
      Forms.sale_data (get_user_data (sales_files st) username "sales")
                      product quantity unit_price cost_per_unit sale_date
                      customer_name in
    let saved := save_user_data (sales_files st) username "sales" sale_data in
    (true, with_sales st saved.2)
  else (false, st).

(* inventory.py *)
Definition add_inventory_form (st : Store) (username item_name : string)
    (quantity : Z) (unit_price : Q) (category : string) (reorder_level : Z)
    (supplier notes : string) (today : Date) : bool * Store :=
  if filled item_name && (0 <=? quantity)%Z then
    let inventory_data :=
      Forms.inventory_data (get_user_data (inventory_files st) username "inventory")
                           item_name quantity unit_price category reorder_level
                           supplier notes today in
    let saved := save_user_data (inventory_files st) username "inventory"
                                inventory_data in
    (true, with_inventory st saved.2)
  else (false, st).







(** dashboard.py: the message boxes [display_ai_insights] draws.  The text
    of a box is the f-string with the title in bold, a blank line and the
    message. *)
Inductive box :=
| st_success (text : list fragment)
| st_warning (text : list fragment)
| st_error (text : list fragment)
| st_info (text : list fragment).

Definition newline : string := String "010" "".

Definition card (insight : Insight) : list fragment :=
  [ Text "**"; Text (title insight); Text "**"; Text newline; Text newline ]
  ++ message insight.

Definition display_ai_insights (st : Store) (username : string) : list box :=
  let insights := generate_insights st username in
  if negb (is_empty insights) then
    flat_map
      (λ insight,
         if String.eqb (type insight) "success" then [st_success (card insight)]
         else if String.eqb (type insight) "warning" then [st_warning (card insight)]
         else if String.eqb (type insight) "error" then [st_error (card insight)]
         else if String.eqb (type insight) "info" then [st_info (card insight)]
         else [])
      insights
  else
    [st_info [Text "📊 Add more sales data to receive personalized AI insights!"]].

(** The severity and the text of a box. *)
Definition box_content (b : box) : string * list fragment :=
  match b with
  | st_success text => ("success", text)
  | st_warning text => ("warning", text)
  | st_error text => ("error", text)
  | st_info text => ("info", text)
  end.

(** analytics_page.py, [display_predictive_insights]: the figures it shows
    when there are at least 7 sales (the average revenue per sale, the
    average of the last 7 sales with its change against the overall
    average, the projected monthly revenue), nothing otherwise. *)
Record Projection := {
  overall_avg : Q;
  recent_avg : Q;
  delta_pct : float64;
  projected_monthly : Q
}.

Definition display_predictive_insights (st : Store) (username : string)
    (metrics : Metrics) : option Projection :=
  let sales_df := sales_df metrics in
  if (7 <=? length sales_df)%nat then
    let recent_avg := mean (map Sale.total_amount (tail 7 sales_df)) in
    let overall_avg := mean (map Sale.total_amount sales_df) in
    let projected_monthly := predict_monthly_revenue st username in
    let delta_pct := np_mul (np_sub (np_div recent_avg overall_avg) 1) 100 in
    Some {| overall_avg := overall_avg;
            recent_avg := recent_avg;
            delta_pct := delta_pct;
            projected_monthly := projected_monthly |}
  else None.

End Pages.

(** ** Vocabulary for the grouped totals *)

Module Grouping.

(** The total quantity sold of a product. *)
Definition quantity_sold (product : string) (sales : list Sale.t) : Z :=
  Num.sumZ (map Sale.quantity
                (List.filter (λ s, String.eqb (Sale.product s) product) sales)).

(** The total that a list of groups holds for a key. *)
Definition total_of (key : string) (groups : list (string * Z)) : Z :=
  Num.sumZ (map snd (List.filter (λ e, String.eqb e.1 key) groups)).

(** Keys in strictly increasing order; totals in decreasing order. *)
Fixpoint increasing (groups : list (string * Z)) : Prop :=
  match groups with
  | [] => True
  | e :: rest =>
      Forall (λ e', String.compare e.1 e'.1 = Lt) rest ∧ increasing rest
  end.

Fixpoint decreasing (groups : list (string * Z)) : Prop :=
  match groups with
  | [] => True
  | e :: rest => Forall (λ e', (e'.2 <= e.2)%Z) rest ∧ decreasing rest
  end.

(** The products sold, as a set. *)
Definition products_sold (sales : list Sale.t) : gset string :=
  list_to_set (map Sale.product sales).

End Grouping.

(** ** Vocabulary for the forms *)

Module FormRules.

(** Ids numbered 1, 2, ..., in the order of the rows. *)
Definition numbered (ids : list Z) : Prop :=
  ids = map Z.of_nat (seq 1 (length ids)).

(** A sale as the form computes it: the amount is quantity × unit price and
    positive, the profit is the amount minus the cost. *)
Definition well_formed_sale (s : Sale.t) : Prop :=
  Sale.total_amount s = (inject_Z (Sale.quantity s) * Sale.unit_price s)%Q
  ∧ Sale.profit s = (Sale.total_amount s - Sale.cost s)%Q
  ∧ (0 < Sale.total_amount s)%Q.

End FormRules.

(** ** Sample accounts *)

Module AuthExamples.

(** A stand-in for the SHA-256 digest, to run the account functions. *)
Definition digest_stub (password : string) : string :=
  String.append "sha256:" password.

Definition fresh_disk : Auth.Disk :=
  Auth.init_data_files digest_stub Auth.blank_disk "2024-01-01 09:00:00".

(** The fresh disk after Asha registered her shop. *)
Definition asha_disk : Auth.Disk :=
  (Auth.register_user digest_stub fresh_disk "asha" "secret1" "Asha Stores"
                      "Retail Shop" "2024-01-02 10:00:00" "2024-01-02 10:00:01").2.

(** A disk whose sales file holds rows under a name that has no account. *)
Definition orphan_disk : Auth.Disk :=
  {| Auth.users_files := Auth.users_files fresh_disk;
     Auth.businesses_files := Auth.businesses_files fresh_disk;
     Auth.data_files := Examples.small_shop |}.

End AuthExamples.

(** ** analytics.py, [get_product_performance] *)

Module Performance.
Import Num Analytics.

(** The three columns that are summed for each product; the quantity
    column is int64 and its sums wrap around. *)
Record Totals := {
  quantity : Z;
  total_amount : Q;
  profit : Q
}.

Definition add_totals (a b : Totals) : Totals :=
  {| quantity := wrap64 (quantity a + quantity b);
     total_amount := total_amount a + total_amount b;
     profit := profit a + profit b |}.

(** [groupby('product').agg({'quantity': 'sum', 'total_amount': 'sum',
    'profit': 'sum'})]: one entry per product, in ascending order of the
    product name. *)
Fixpoint agg_add (key : string) (row : Totals) (groups : list (string * Totals))
    : list (string * Totals) :=
  match groups with
  | [] => [(key, row)]
  | (k, totals) :: rest =>
      match String.compare key k with
      | Eq => (k, add_totals totals row) :: rest
      | Lt => (key, row) :: groups
      | Gt => (k, totals) :: agg_add key row rest
      end
  end.

Definition groupby_agg (rows : list Sale.t) : list (string * Totals) :=
  fold_left
    (λ groups row,
       agg_add (Sale.product row)
               {| quantity := Sale.quantity row;
                  total_amount := Sale.total_amount row;
                  profit := Sale.profit row |}
               groups)
    rows [].

(** Rounding to the nearest integer, halves to the even neighbour, and
    [.round(2)] of a column value, in the exact reading of the amounts:
    infinities and NaN stay as they are. *)
Definition floor (q : Q) : Z := (Qnum q / Z.pos (Qden q))%Z.

Definition round_half_even (q : Q) : Z :=
  let below := floor q in
  let rest := (q - inject_Z below)%Q in
  if Qltb rest (1 # 2) then below
  else if Qltb (1 # 2) rest then (below + 1)%Z
  else if Z.even below then below
  else (below + 1)%Z.

Definition round2 (x : float64) : float64 :=
  match x with
  | Finite q => Finite (inject_Z (round_half_even (q * 100)) / 100)
  | other => other
  end.

(** A row of the returned frame. *)
Record ProductStats := {
  product : string;
  sold : Totals;
  profit_margin_pct : float64
}.

Definition with_margin (entry : string * Totals) : ProductStats :=
  {| product := entry.1;
     sold := entry.2;
     profit_margin_pct :=
       round2 (np_mul (np_div (profit entry.2) (total_amount entry.2)) 100) |}.

(** [.sort_values('total_amount', ascending=False)]; as for the top
    performer, rows of equal amount keep their order here. *)
Fixpoint insert_by_amount (row : ProductStats) (sorted : list ProductStats)
    : list ProductStats :=
  match sorted with
  | [] => [row]
  | r :: rest =>
      if Qle_bool (total_amount (sold r)) (total_amount (sold row)) then row :: sorted
      else r :: insert_by_amount row rest
  end.

Definition sort_by_amount (rows : list ProductStats) : list ProductStats :=
  foldr insert_by_amount [] rows.

Definition get_product_performance (st : Store) (username : string)
    : option (list ProductStats) :=
  match calculate_metrics st username with
  | None => None
  | Some metrics =>
      if is_empty (sales_df metrics) then None
      else
        let df := sales_df metrics in
        (* Aggregate by product *)
        let product_stats := map with_margin (groupby_agg df) in
        Some (sort_by_amount product_stats)
  end.

(** Product names in strictly increasing order; amounts in decreasing
    order. *)
Fixpoint names_increasing (names : list string) : Prop :=
  match names with
  | [] => True
  | k :: rest => Forall (λ k', String.compare k k' = Lt) rest ∧ names_increasing rest
  end.

Fixpoint amounts_decreasing (rows : list ProductStats) : Prop :=
  match rows with
  | [] => True
  | r :: rest =>
      Forall (λ r', (total_amount (sold r') <= total_amount (sold r))%Q) rest
      ∧ amounts_decreasing rest
  end.

End Performance.

(** ** analytics.py in binary64

    The same functions with every amount the binary64 value the code
    holds.  A literal such as [0.3] is the binary64 number nearest to it, as
    in Python; the arithmetic and the comparisons are IEEE 754's, in the
    order in which the code writes them.

    Three summations are library code whose order of additions depends on
    the installed versions (numpy adds a long column in blocks, Python 3.12
    compensates the built-in [sum]): the column [.sum()], the column
    [.mean()] and the built-in [sum] are therefore parameters of the
    functions below.  [sequential_sum] and [sequential_mean] are the plain
    left-to-right instances, on which the examples are run; every example
    sums fewer than 8 values whose partial sums are exact. *)

Module Binary64.
Import PrimFloat.
Import Config DataManager Num Analytics.

#[local] Set Warnings "-inexact-float".

Abbreviation float := PrimFloat.float.

Module Sale.
Record t := {
  id : Z;
  product : string;
  quantity : Z;
  unit_price : float;
  total_amount : float;
  cost : float;
  profit : float;
  customer : string;
  date : Date
}.
End Sale.

Module Item.
Record t := {
  id : Z;
  name : string;
  quantity : Z;
  unit_price : float;
  category : string;
  reorder_level : Z;
  supplier : string;
  notes : string;
  added_date : Date
}.
End Item.

Module Order.
Record t := {
  id : Z;
  description : string;
  amount : float;
  customer : string;
  status : string;
  order_date : Date;
  due_date : Date;
  notes : string
}.
End Order.

Module Debt.
Record t := {
  id : Z;
  debtor : string;
  amount : float;
  type : string;
  status : string;
  debt_date : Date;
  due_date : Date;
  notes : string
}.
End Debt.

(** The thresholds of [config.py] as Python reads them. *)
Definition LOW_PROFIT_MARGIN_THRESHOLD : float := 20%float.
Definition HIGH_PROFIT_MARGIN_THRESHOLD : float := 40%float.
Definition DEBT_WARNING_RATIO : float := 0.3%float.
Definition SALES_GROWTH_THRESHOLD : float := 1.2%float.
Definition SALES_DECLINE_THRESHOLD : float := 0.8%float.

(** An [int] that meets a [float] in an arithmetic operation is converted
    to the nearest binary64 value, ties to even. *)
Definition of_Z (z : Z) : float :=
  FloatOps.SF2Prim (SpecFloat.binary_normalize FloatOps.prec FloatOps.emax z 0 false).

(** The rational number a finite binary64 value stands for. *)
Definition exact (x : float) : Q :=
  match FloatOps.Prim2SF x with
  | SpecFloat.S754_finite negative m e =>
      ((if negative then - 1 else 1) * inject_Z (Z.pos m) * Qpower (2 # 1) e)%Q
  | _ => 0%Q
  end.

Record Store := {
  sales_files : gmap string (gmap string (list Sale.t));
  inventory_files : gmap string (gmap string (list Item.t));
  orders_files : gmap string (gmap string (list Order.t));
  debts_files : gmap string (gmap string (list Debt.t))
}.

(** The dictionary returned by [calculate_metrics]. *)
Record Metrics := {
  total_revenue : float;
  total_profit : float;
  profit_margin : float;
  inventory_value : float;
  pending_orders : float;
  total_debts : float;
  sales_df : list Sale.t;
  total_sales_count : nat
}.

Inductive value :=
| VNum (x : float)
| VCount (n : nat)
| VFrame (rows : list Sale.t).

Definition metrics_items (m : Metrics) : list (string * value) :=
  [ ("total_revenue", VNum (total_revenue m));
    ("total_profit", VNum (total_profit m));
    ("profit_margin", VNum (profit_margin m));
    ("inventory_value", VNum (inventory_value m));
    ("pending_orders", VNum (pending_orders m));
    ("total_debts", VNum (total_debts m));
    ("sales_df", VFrame (sales_df m));
    ("total_sales_count", VCount (total_sales_count m)) ].

Fixpoint dict_get (key : string) (items : list (string * value)) : option value :=
  match items with
  | [] => None
  | (k, v) :: rest => if String.eqb k key then Some v else dict_get key rest
  end.

Section Summation.

(** [column.sum()], [column.mean()] and the built-in [sum]. *)
Variable series_sum : list float → float.
Variable series_mean : list float → float.
Variable builtin_sum : list float → float.

Definition calculate_metrics (st : Store) (username : string) : option Metrics :=
  let sales := get_user_data (sales_files st) username "sales" in
  let inventory := get_user_data (inventory_files st) username "inventory" in
  let orders := get_user_data (orders_files st) username "orders" in
  let debts := get_user_data (debts_files st) username "debts" in
  if is_empty sales then None
  else
    let sales_df := sales in
    let total_revenue := series_sum (map Sale.total_amount sales_df) in
    let total_cost := series_sum (map Sale.cost sales_df) in
    let total_profit := PrimFloat.sub total_revenue total_cost in
    let profit_margin :=
      if PrimFloat.ltb 0 total_revenue
      then PrimFloat.mul (PrimFloat.div total_profit total_revenue) 100
      else 0%float in
    let inventory_value :=
      builtin_sum
        (map (λ item, PrimFloat.mul (of_Z (Item.quantity item)) (Item.unit_price item))
             inventory) in
    let pending_orders_value :=
      builtin_sum
        (map Order.amount
             (List.filter (λ order, String.eqb (Order.status order) "Pending")
                          orders)) in
    let total_debts :=
      builtin_sum
        (map Debt.amount
             (List.filter (λ debt, String.eqb (Debt.status debt) "Pending")
                          debts)) in
    Some {| total_revenue := total_revenue;
            total_profit := total_profit;
            profit_margin := profit_margin;
            inventory_value := inventory_value;
            pending_orders := pending_orders_value;
            total_debts := total_debts;
            sales_df := sales_df;
            total_sales_count := length sales |}.

(** [groupby('product')['quantity'].sum()] on these rows: the int64
    quantity column, grouped as in [Analytics.groupby_sum]. *)
Definition groupby_sum (rows : list Sale.t) : list (string * Z) :=
  fold_left (λ groups row, group_add (Sale.product row) (Sale.quantity row) groups)
            rows [].

(* Insight 1: Best selling products *)
Definition best_selling_products (sales_df : list Sale.t) (insights : list Insight)
    : list Insight :=
  if negb (is_empty sales_df) then
    let product_sales := sort_values_desc (groupby_sum sales_df) in
    match product_sales with
    | (top_product, top_quantity) :: _ =>
        insights ++
        [ {| type := "success";
             title := "🏆 Top Performer";
             message := [ Text "'"; Text top_product;
                          Text "' is your best-seller with ";
                          Int top_quantity; Text " units sold!" ] |} ]
    | [] => insights
    end
  else insights.

(* Insight 2: Profit margin analysis *)
Definition profit_margin_analysis (metrics : Metrics) (insights : list Insight)
    : list Insight :=
  if PrimFloat.ltb (profit_margin metrics) LOW_PROFIT_MARGIN_THRESHOLD then
    insights ++
    [ {| type := "warning";
         title := "⚠️ Low Profit Margin";
         message := [ Text "Your profit margin is ";
                      Fixed1_binary64 (profit_margin metrics);
                      Text "%. Consider reviewing pricing or reducing costs." ] |} ]
  else if PrimFloat.ltb HIGH_PROFIT_MARGIN_THRESHOLD (profit_margin metrics) then
    insights ++
    [ {| type := "success";
         title := "💰 Excellent Margins";
         message := [ Text "Outstanding profit margin of ";
                      Fixed1_binary64 (profit_margin metrics);
                      Text "%! Keep up the good work." ] |} ]
  else insights.

(* Insight 3: Sales trends *)
Definition sales_trends (sales_df : list Sale.t) (insights : list Insight)
    : list Insight :=
  if (7 <? length sales_df)%nat then
    let recent_sales := series_mean (map Sale.total_amount (tail 7 sales_df)) in
    let older_sales := series_mean (map Sale.total_amount (head 7 sales_df)) in
    if PrimFloat.ltb (PrimFloat.mul older_sales SALES_GROWTH_THRESHOLD) recent_sales then
      let growth_pct :=
        PrimFloat.mul (PrimFloat.sub (PrimFloat.div recent_sales older_sales) 1) 100 in
      insights ++
      [ {| type := "success";
           title := "📈 Growth Trend";
           message := [ Text "Sales are trending up! Recent average is ";
                        Fixed1_binary64 growth_pct; Text "% higher." ] |} ]
    else if PrimFloat.ltb recent_sales
                          (PrimFloat.mul older_sales SALES_DECLINE_THRESHOLD) then
      insights ++
      [ {| type := "warning";
           title := "📉 Declining Sales";
           message := [ Text "Sales have decreased recently. Consider promotional activities or customer outreach." ] |} ]
    else insights
  else insights.

(* Insight 4: Debt management *)
Definition debt_management (metrics : Metrics) (insights : list Insight)
    : list Insight :=
  if PrimFloat.ltb (PrimFloat.mul (total_revenue metrics) DEBT_WARNING_RATIO)
                   (total_debts metrics) then
    insights ++
    [ {| type := "error";
         title := "💳 High Debt Alert";
         message := [ Text "Pending debts (₹"; Money_binary64 (total_debts metrics);
                      Text ") are over 30% of revenue. Prioritize collections." ] |} ]
  else insights.

(* Insight 5: Inventory insights *)
Definition inventory_insights (inventory : list Item.t) (insights : list Insight)
    : list Insight :=
  let low_stock :=
    List.filter (λ item, (Item.quantity item <? LOW_STOCK_THRESHOLD)%Z) inventory in
  if negb (is_empty low_stock) then
    let product_names := String.concat ", " (map Item.name (take 3 low_stock)) in
    let more_text :=
      if (3 <? length low_stock)%nat then
        [ Text " and "; Int (Z.of_nat (length low_stock) - 3); Text " more" ]
      else [] in
    insights ++
    [ {| type := "warning";
         title := "📦 Low Stock Alert";
         message := [ Int (Z.of_nat (length low_stock));
                      Text " item(s) running low. Restock: ";
                      Text product_names ] ++ more_text |} ]
  else insights.

(* Insight 6: Product diversity *)
Definition product_diversity (sales_df : list Sale.t) (insights : list Insight)
    : list Insight :=
  if negb (is_empty sales_df) then
    let unique_products := nunique (map Sale.product sales_df) in
    if (unique_products <? 3)%nat then
      insights ++
      [ {| type := "info";
           title := "🎯 Product Diversity";
           message := [ Text "You're selling ";
                        Int (Z.of_nat unique_products);
                        Text " product(s). Consider expanding your product range to attract more customers." ] |} ]
    else insights
  else insights.

Definition generate_insights (st : Store) (username : string) : list Insight :=
  match calculate_metrics st username with
  | None => []
  | Some metrics =>
      let insights := [] in
      let sales_df := sales_df metrics in
      let insights := best_selling_products sales_df insights in
      let insights := profit_margin_analysis metrics insights in
      let insights := sales_trends sales_df insights in
      let insights := debt_management metrics insights in
      let inventory := get_user_data (inventory_files st) username "inventory" in
      let insights := inventory_insights inventory insights in
      let insights := product_diversity sales_df insights in
      insights
  end.

(** What the six blocks append, for the metrics [m] of the user. *)
Definition blocks (st : Store) (username : string) (m : Metrics)
    : list (list Insight) :=
  [ best_selling_products (sales_df m) [];
    profit_margin_analysis m [];
    sales_trends (sales_df m) [];
    debt_management m [];
    inventory_insights (get_user_data (inventory_files st) username "inventory") [];
    product_diversity (sales_df m) [] ].

End Summation.

(** Additions in row order, from 0.0. *)
Definition sequential_sum (xs : list float) : float :=
  fold_left PrimFloat.add xs 0%float.

Definition sequential_mean (xs : list float) : float :=
  PrimFloat.div (sequential_sum xs) (of_Z (Z.of_nat (length xs))).

(** The rows [add_sale_form] and [add_debt_form] build. *)
Definition sale_data (sales : list Sale.t) (product : string) (quantity : Z)
    (unit_price cost_per_unit : float) (sale_date : Date) (customer_name : string)
    : Sale.t :=
  let total_amount := PrimFloat.mul (of_Z quantity) unit_price in
  let total_cost := PrimFloat.mul (of_Z quantity) cost_per_unit in
  let profit := PrimFloat.sub total_amount total_cost in
  {| Sale.id := Z.of_nat (length sales) + 1;
     Sale.product := product;
     Sale.quantity := quantity;
     Sale.unit_price := unit_price;
     Sale.total_amount := total_amount;
     Sale.cost := total_cost;
     Sale.profit := profit;
     Sale.customer := if String.eqb customer_name "" then "N/A" else customer_name;
     Sale.date := sale_date |}.

Definition debt_data (debts : list Debt.t) (debtor_name : string) (amount : float)
    (debt_type status : string) (debt_date due_date : Date) (notes : string)
    : Debt.t :=
  {| Debt.id := Z.of_nat (length debts) + 1;
     Debt.debtor := debtor_name;
     Debt.amount := amount;
     Debt.type := debt_type;
     Debt.status := status;
     Debt.debt_date := debt_date;
     Debt.due_date := due_date;
     Debt.notes := notes |}.

(** The sales after the form was submitted once per entry: a product, a
    quantity, a unit price and a unit cost each. *)
Definition record_sales (entries : list (string * Z * float * float)) : list Sale.t :=
  fold_left
    (λ sales '(product, quantity, unit_price, cost_per_unit),
       sales ++ [sale_data sales product quantity unit_price cost_per_unit
                           {| year := 2024; month := 1; day := 1 |} ""])
    entries [].

(** Pending debts added one by one, an amount each. *)
Definition record_debts (amounts : list float) : list Debt.t :=
  fold_left
    (λ debts amount,
       debts ++ [debt_data debts "ravi" amount "Receivable (They owe you)" "Pending"
                           {| year := 2024; month := 1; day := 1 |}
                           {| year := 2024; month := 1; day := 31 |} ""])
    amounts [].

(** A file system in which one user owns the given sales and debts. *)
Definition store_of (username : string) (sales : list Sale.t) (debts : list Debt.t)
    : Store :=
  {| sales_files := {[ SALES_FILE := {[ username := sales ]} ]};
     inventory_files := ∅;
     orders_files := ∅;
     debts_files := {[ DEBTS_FILE := {[ username := debts ]} ]} |}.

(** One sale of 7.00 and a pending debt of 2.10; one sale of 3.00 and a
    pending debt of 0.90. *)
Definition seven_shop : Store :=
  store_of "asha" (record_sales [("tea", 1%Z, 7%float, 4%float)])
           (record_debts [2.1%float]).

Definition three_shop : Store :=
  store_of "asha" (record_sales [("tea", 1%Z, 3%float, 2%float)])
           (record_debts [0.9%float]).

(** One sale at 0.25 of an article that cost 0.20. *)
Definition quarter_shop : Store :=
  store_of "asha" (record_sales [("tea", 1%Z, 0.25%float, 0.2%float)]) [].

(** A row whose amount was stored as a negative number. *)
Definition refund_shop : Store :=
  store_of "asha"
    [ {| Sale.id := 1; Sale.product := "tea"; Sale.quantity := 1;
         Sale.unit_price := 10%float; Sale.total_amount := (-10)%float;
         Sale.cost := 0%float; Sale.profit := (-10)%float;
         Sale.customer := "N/A";
         Sale.date := {| year := 2024; month := 1; day := 1 |} |} ]
    [].

(** Seven sales of 5.00, then one of 12.00: the first seven average 5, the
    last seven 6.  One sale of 3.00, six of 2.00 and one of 6.00: the first
    seven average 15/7, the last seven 18/7, which is 1.2 times as much.
    One sale of 20.00, six of 5.00 and one of 10.00: the first seven average
    50/7, the last seven 40/7, which is 0.8 times as much. *)
Definition priced (amounts : list float) : list (string * Z * float * float) :=
  map (λ amount, ("tea", 1%Z, amount, 0%float)) amounts.

Definition spike_shop : Store :=
  store_of "asha" (record_sales (priced [5; 5; 5; 5; 5; 5; 5; 12]%float)) [].

Definition ratio_shop : Store :=
  store_of "asha" (record_sales (priced [3; 2; 2; 2; 2; 2; 2; 6]%float)) [].

Definition dip_shop : Store :=
  store_of "asha" (record_sales (priced [20; 5; 5; 5; 5; 5; 5; 10]%float)) [].

Definition steady_growth_shop : Store :=
  store_of "asha" (record_sales (priced [10; 10; 10; 10; 10; 10; 10; 80]%float)) [].

End Binary64.

(** * Properties *)

(** ** The data manager *)

Module DataManagerFacts.
Import Config DataManager.

Section Rows.
Context {R : Type}.

Implicit Types (fs : gmap string (gmap string (list R))).

Lemma file_map_unknown (data_type : string) :
  data_type ∉ known_data_types → file_map !! data_type = None.
Proof.
  intros Hout. unfold file_map.
  repeat (rewrite lookup_insert_ne;
          [| intros <-; apply Hout; unfold known_data_types; set_solver]).
  apply lookup_empty.
Qed.

Lemma file_map_known (data_type : string) :
  data_type ∈ known_data_types → is_Some (file_map !! data_type).
Proof.
  unfold known_data_types. intros Hin.
  repeat (apply elem_of_cons in Hin as [-> | Hin]; [by eexists |]).
  by apply elem_of_nil in Hin.
Qed.

(** Reading back what was just appended. *)
Lemma get_after_save fs (username data_type : string) (new_data : R) :
  data_type ∈ known_data_types →
  get_user_data (save_user_data fs username data_type new_data).2
                username data_type
  = get_user_data fs username data_type ++ [new_data].
Proof.
  intros [filepath Hfile]%file_map_known.
  unfold get_user_data, save_user_data. rewrite Hfile. cbn.
  unfold load_json at 1, save_json. rewrite lookup_insert_eq.
  rewrite lookup_alter_eq.
  destruct (load_json fs filepath !! username) as [rows |] eqn:Hrows.
  - by rewrite Hrows.
  - by rewrite lookup_insert_eq.
Qed.

Lemma get_after_update fs (username data_type : string) (updated_list : list R) :
  data_type ∈ known_data_types →
  get_user_data (update_user_data fs username data_type updated_list).2
                username data_type
  = updated_list.
Proof.
  intros [filepath Hfile]%file_map_known.
  unfold get_user_data, update_user_data. rewrite Hfile. cbn.
  unfold load_json at 1, save_json. by rewrite !lookup_insert_eq.
Qed.

(** C9: for a data type outside sales, inventory, orders and debts,
    [get_user_data] returns the empty list, and [save_user_data] and
    [update_user_data] return [False] and leave the file system exactly
    as it was. *)
Theorem unknown_data_type_rejected fs (username data_type : string)
    (new_data : R) (updated_list : list R) :
  data_type ∉ known_data_types →
  get_user_data fs username data_type = []
  ∧ save_user_data fs username data_type new_data = (false, fs)
  ∧ update_user_data fs username data_type updated_list = (false, fs).
Proof.
  intros Hnone%file_map_unknown.
  unfold get_user_data, save_user_data, update_user_data.
  by rewrite Hnone.
Qed.

End Rows.

Lemma unknown_data_type_rejected_witness :
  ("users" ∉ known_data_types)
  ∧ (get_user_data Examples.sample_files "asha" "users" = []
     ∧ save_user_data Examples.sample_files "asha" "users" 3 = (false, Examples.sample_files)
     ∧ update_user_data Examples.sample_files "asha" "users" [4; 5] = (false, Examples.sample_files)).
Proof.
  assert (Hout : "users" ∉ known_data_types).
  { unfold known_data_types. intros Hin.
    repeat (apply elem_of_cons in Hin as [Heq | Hin]; [discriminate Heq |]).
    by apply elem_of_nil in Hin. }
  split; [exact Hout |].
  exact (unknown_data_type_rejected Examples.sample_files "asha" "users" 3 [4; 5] Hout).
Defined.

End DataManagerFacts.

(** ** Sums, means and comparisons *)

Module NumFacts.
Import Num.

Lemma Qltb_lt (x y : Q) : Qltb x y = true ↔ (x < y)%Q.
Proof.
  unfold Qltb. rewrite negb_true_iff. split.
  - intros Hb. apply Qnot_le_lt. intros Hle%Qle_bool_iff. congruence.
  - intros Hlt. destruct (Qle_bool y x) eqn:Hb; [| reflexivity].
    apply Qle_bool_iff in Hb. lra.
Qed.




Lemma tail_length {A} (n : nat) (rows : list A) :
  (n ≤ length rows)%nat → length (tail n rows) = n.
Proof.
  intros Hn. unfold tail. rewrite length_drop. lia.
Qed.

Lemma head_length {A} (n : nat) (rows : list A) :
  (n ≤ length rows)%nat → length (head n rows) = n.
Proof.
  intros Hn. unfold head. rewrite length_take. lia.
Qed.

End NumFacts.

(** ** The metrics *)

Module MetricsFacts.
Import Config DataManager Num NumFacts Analytics Reading.

Lemma is_empty_true {A} (rows : list A) : is_empty rows = true ↔ rows = [].
Proof. destruct rows; cbn; split; congruence. Qed.

Lemma is_empty_false {A} (rows : list A) : is_empty rows = false ↔ rows ≠ [].
Proof. destruct rows; cbn; split; congruence. Qed.

(** The dictionary [calculate_metrics] builds when the user has sales. *)
Lemma calculate_metrics_some (st : Store) (username : string) :
  let sales := get_user_data (sales_files st) username "sales" in
  let revenue := sum (map Sale.total_amount sales) in
  let profit := (revenue - sum (map Sale.cost sales))%Q in
  sales ≠ [] →
  calculate_metrics st username =
  Some {| total_revenue := revenue;
          total_profit := profit;
          profit_margin := if Qltb 0 revenue then (profit / revenue * 100)%Q else 0%Q;
          inventory_value :=
            sum (map (λ item, inject_Z (Item.quantity item) * Item.unit_price item)%Q
                     (get_user_data (inventory_files st) username "inventory"));
          pending_orders :=
            sum (map Order.amount
                     (List.filter (λ order, String.eqb (Order.status order) "Pending")
                                  (get_user_data (orders_files st) username "orders")));
          total_debts :=
            pending_debts (get_user_data (debts_files st) username "debts");
          sales_df := sales;
          total_sales_count := length sales |}.
Proof.
  intros sales revenue profit Hsales%is_empty_false.
  unfold calculate_metrics. fold sales. rewrite Hsales. reflexivity.
Qed.

Lemma calculate_metrics_none (st : Store) (username : string) :
  get_user_data (sales_files st) username "sales" = [] →
  calculate_metrics st username = None.
Proof.
  intros Hsales. unfold calculate_metrics. rewrite Hsales. reflexivity.
Qed.

Lemma generate_insights_none (st : Store) (username : string) :
  get_user_data (sales_files st) username "sales" = [] →
  generate_insights st username = [].
Proof.
  intros Hnone%calculate_metrics_none.
  unfold generate_insights. rewrite Hnone. reflexivity.
Qed.

(** C5: with no sales, [calculate_metrics] returns [None] and
    [generate_insights] returns the empty list: both return a value, and no
    insight block is run. *)
Theorem no_sales_no_data (st : Store) (username : string) :
  get_user_data (sales_files st) username "sales" = [] →
  calculate_metrics st username = None ∧ generate_insights st username = [].
Proof.
  intros Hnone. split.
  - by apply calculate_metrics_none.
  - by apply generate_insights_none.
Qed.

Lemma no_sales_no_data_witness :
  get_user_data (sales_files Examples.new_account) "asha" "sales" = []
  ∧ calculate_metrics Examples.new_account "asha" = None
  ∧ generate_insights Examples.new_account "asha" = [].
Proof.
  split; [reflexivity |].
  apply (no_sales_no_data Examples.new_account "asha"). reflexivity.
Defined.

End MetricsFacts.

(** ** The insight list, block by block *)

Module BlockFacts.
Import Config DataManager Num NumFacts Analytics Reading MetricsFacts.

Ltac unfold_blocks :=
  unfold best_selling_products, profit_margin_analysis, sales_trends,
    debt_management, inventory_insights, product_diversity.

(** Decide a fact about what one block emits: split on the block's tests
    and evaluate the recognisers on the insight literal. *)
Ltac run_block := unfold_blocks; repeat case_match; try reflexivity.

(** Each block only appends. *)
Lemma best_selling_products_app (sales_df : list Sale.t) (insights : list Insight) :
  best_selling_products sales_df insights
  = insights ++ best_selling_products sales_df [].
Proof. run_block; by rewrite app_nil_r. Qed.

Lemma profit_margin_analysis_app (metrics : Metrics) (insights : list Insight) :
  profit_margin_analysis metrics insights
  = insights ++ profit_margin_analysis metrics [].
Proof. run_block; by rewrite app_nil_r. Qed.

Lemma sales_trends_app (sales_df : list Sale.t) (insights : list Insight) :
  sales_trends sales_df insights = insights ++ sales_trends sales_df [].
Proof. run_block; by rewrite app_nil_r. Qed.

Lemma debt_management_app (metrics : Metrics) (insights : list Insight) :
  debt_management metrics insights = insights ++ debt_management metrics [].
Proof. run_block; by rewrite app_nil_r. Qed.

Lemma inventory_insights_app (inventory : list Item.t) (insights : list Insight) :
  inventory_insights inventory insights
  = insights ++ inventory_insights inventory [].
Proof. run_block; by rewrite app_nil_r. Qed.

Lemma product_diversity_app (sales_df : list Sale.t) (insights : list Insight) :
  product_diversity sales_df insights = insights ++ product_diversity sales_df [].
Proof. run_block; by rewrite app_nil_r. Qed.

Lemma generate_insights_blocks (st : Store) (username : string) (m : Metrics) :
  calculate_metrics st username = Some m →
  generate_insights st username = concat (blocks st username m).
Proof.
  intros Hm. unfold generate_insights. rewrite Hm. cbv zeta.
  rewrite product_diversity_app, inventory_insights_app, debt_management_app,
    sales_trends_app, profit_margin_analysis_app.
  unfold blocks. cbn [concat]. rewrite app_nil_r, <- !app_assoc. reflexivity.
Qed.

Lemma filter_blocks (kind : Insight → bool) (st : Store) (username : string)
    (m : Metrics) :
  calculate_metrics st username = Some m →
  List.filter kind (generate_insights st username)
  = concat (map (List.filter kind) (blocks st username m)).
Proof.
  intros Hm. rewrite (generate_insights_blocks _ _ _ Hm).
  induction (blocks st username m) as [| block rest IH]; [reflexivity |].
  cbn [concat map]. rewrite List.filter_app, IH. reflexivity.
Qed.

Lemma contains_count (kind : Insight → bool) (insights : list Insight) :
  contains kind insights ↔ (0 < count kind insights)%nat.
Proof.
  unfold contains, count.
  induction insights as [| i rest IH]; cbn.
  - split; [discriminate | lia].
  - destruct (kind i); cbn; [split; [lia | reflexivity] | exact IH].
Qed.

End BlockFacts.

(** ** The insight rules *)

Module InsightFacts.
Import Config DataManager Num NumFacts Analytics Reading MetricsFacts BlockFacts.

(** Reduce the insights of one kind in the whole list to the block that
    emits them: every other block contributes none. *)
Ltac to_block Hm :=
  rewrite (filter_blocks _ _ _ _ Hm); unfold blocks; cbn [map concat];
  repeat match goal with
    | |- context [List.filter ?kind (?block ?arg [])] =>
        let H := fresh in
        first [ assert (H : List.filter kind (block arg []) = []) by run_block
              | assert (H : List.filter kind (block arg []) = block arg []) by run_block ];
        rewrite H; clear H
    end;
  cbn [app]; rewrite ?app_nil_r.



Lemma low_stock_warnings (st : Store) (username : string) (m : Metrics) :
  calculate_metrics st username = Some m →
  List.filter low_stock_warning (generate_insights st username)
  = inventory_insights (get_user_data (inventory_files st) username "inventory") [].
Proof. intros Hm. to_block Hm. reflexivity. Qed.


Ltac nonempty_sales := vm_compute; discriminate.


(** The low-stock warning the inventory block builds from the items below
    the threshold. *)
Lemma inventory_insights_warning (inventory : list Item.t) :
  let low := below_threshold inventory in
  inventory_insights inventory []
  = if negb (is_empty low) then
      [ {| type := "warning";
           title := "📦 Low Stock Alert";
           message :=
             [ Int (Z.of_nat (length low));
               Text " item(s) running low. Restock: ";
               Text (String.concat ", " (map Item.name (take 3 low))) ]
             ++ (if (3 <? length low)%nat
                 then [ Text " and "; Int (Z.of_nat (length low) - 3); Text " more" ]
                 else []) |} ]
    else [].
Proof.
  intros low. unfold inventory_insights. fold (below_threshold inventory). fold low.
  destruct (is_empty low); reflexivity.
Qed.

(** C2, as the code has it: the items counted are those below the
    configured threshold of 10 units, whatever their own reorder level, and
    insights exist only for a user with sales.  If exactly [k] items are
    below the threshold, the low-stock warning is in the list exactly when
    [k > 0], at most once; it names the first [min k 3] of them and ends
    with " and k-3 more" exactly when [k > 3]. *)
Theorem low_stock_rule (st : Store) (username : string) (k : nat) :
  let inventory := get_user_data (inventory_files st) username "inventory" in
  let low := below_threshold inventory in
  let insights := generate_insights st username in
  get_user_data (sales_files st) username "sales" ≠ [] →
  length low = k →
  (contains low_stock_warning insights ↔ (0 < k)%nat)
  ∧ (count low_stock_warning insights ≤ 1)%nat
  ∧ ∀ i, In i insights → low_stock_warning i = true →
      let names := map Item.name (take 3 low) in
      length names = Nat.min k 3
      ∧ message i
        = [ Int (Z.of_nat k); Text " item(s) running low. Restock: ";
            Text (String.concat ", " names) ]
          ++ (if (3 <? k)%nat
              then [ Text " and "; Int (Z.of_nat k - 3); Text " more" ]
              else []).
Proof.
  intros inventory low insights Hsales Hk.
  pose proof (calculate_metrics_some st username Hsales) as Hm.
  assert (Hfilter : List.filter low_stock_warning insights
                    = inventory_insights inventory []).
  { unfold insights. rewrite (low_stock_warnings _ _ _ Hm). reflexivity. }
  rewrite inventory_insights_warning in Hfilter. fold low in Hfilter.
  rewrite Hk in Hfilter.
  rewrite contains_count. unfold count. rewrite Hfilter.
  assert (Hempty : is_empty low = true ↔ k = 0%nat).
  { rewrite is_empty_true. subst k. destruct low; cbn; split; congruence. }
  split; [| split].
  - destruct (is_empty low); cbn; [split; [lia |] | split; [| lia]].
    + intros Hpos. destruct Hempty as [Hzero _]. rewrite Hzero in Hpos; [lia | reflexivity].
    + intros _. destruct k; [| lia]. destruct Hempty as [_ Hone]. discriminate Hone.
      reflexivity.
  - destruct (is_empty low); cbn; lia.
  - intros i Hin Hkind.
    assert (Hi : In i (List.filter low_stock_warning insights))
      by (apply List.filter_In; split; assumption).
    rewrite Hfilter in Hi.
    destruct (is_empty low); cbn [negb] in Hi; [destruct Hi |].
    destruct Hi as [<- | []]. cbn [message].
    split; [| reflexivity].
    rewrite length_map, length_take. lia.
Qed.

Lemma low_stock_rule_witness :
  get_user_data (sales_files Examples.understocked_shop) "asha" "sales" ≠ []
  ∧ length (below_threshold
              (get_user_data (inventory_files Examples.understocked_shop)
                             "asha" "inventory")) = 4%nat
  ∧ contains low_stock_warning (generate_insights Examples.understocked_shop "asha")
  ∧ ∀ i, In i (generate_insights Examples.understocked_shop "asha") →
         low_stock_warning i = true →
         message i = [ Int 4; Text " item(s) running low. Restock: ";
                       Text "rice, salt, soap"; Text " and "; Int 1; Text " more" ].
Proof.
  assert (Hsales : get_user_data (sales_files Examples.understocked_shop) "asha" "sales" ≠ [])
    by nonempty_sales.
  assert (Hk : length (below_threshold
                         (get_user_data (inventory_files Examples.understocked_shop)
                                        "asha" "inventory")) = 4%nat)
    by reflexivity.
  split; [exact Hsales |]. split; [exact Hk |].
  destruct (low_stock_rule Examples.understocked_shop "asha" 4 Hsales Hk)
    as (Hcontains & _ & Hmessage).
  split; [apply Hcontains; lia |].
  intros i Hin Hkind. destruct (Hmessage i Hin Hkind) as [_ ->]. reflexivity.
Defined.

(** C2 as stated fails.  An item holding 12 units with a reorder level of 20
    is below its own reorder level and raises no warning; an item holding 5
    units with a reorder level of 3 is not below it and raises one; and
    without sales no insight is produced at all, low stock or not. *)
Lemma low_stock_reorder_level_counterexample :
  (length (below_reorder_level
             (get_user_data (inventory_files Examples.high_reorder_shop)
                            "asha" "inventory")) = 1%nat
   ∧ ¬ contains low_stock_warning (generate_insights Examples.high_reorder_shop "asha"))
  ∧ (length (below_reorder_level
               (get_user_data (inventory_files Examples.low_reorder_shop)
                              "asha" "inventory")) = 0%nat
     ∧ contains low_stock_warning (generate_insights Examples.low_reorder_shop "asha"))
  ∧ (length (below_reorder_level
               (get_user_data (inventory_files Examples.new_account)
                              "asha" "inventory")) = 1%nat
     ∧ ¬ contains low_stock_warning (generate_insights Examples.new_account "asha")).
Proof.
  repeat split; try reflexivity; vm_compute; discriminate.
Qed.

(** Every block emits at most one insight, of its own rule, with one of the
    four severities. *)
Lemma block_lengths (st : Store) (username : string) (m : Metrics) :
  Forall (λ block : list Insight, (length block ≤ 1)%nat) (blocks st username m).
Proof.
  unfold blocks. repeat apply Forall_cons_2; [.. | apply Forall_nil_2];
    run_block; cbn; lia.
Qed.

Ltac emits rule :=
  run_block; cbn [app];
  repeat first [apply Forall_nil_2 | apply Forall_cons_2];
  (split; [cbn; tauto | by exists rule]).

Lemma block_severities (st : Store) (username : string) (m : Metrics) :
  Forall (Forall (λ i, In (type i) severities ∧ ∃ rule, emitted_by rule i = true))
         (blocks st username m).
Proof.
  unfold blocks. repeat apply Forall_cons_2; [.. | apply Forall_nil_2].
  - emits TopPerformer.
  - emits MarginCheck.
  - emits TrendCheck.
  - emits DebtCheck.
  - emits LowStock.
  - emits DiversityCheck.
Qed.

Lemma concat_short {A} (parts : list (list A)) :
  Forall (λ part, (length part ≤ 1)%nat) parts →
  (length (concat parts) ≤ length parts)%nat.
Proof.
  induction 1 as [| part rest Hpart _ IH]; cbn [concat length].
  - lia.
  - rewrite length_app. lia.
Qed.

Lemma concat_all {A} (P : A → Prop) (parts : list (list A)) :
  Forall (Forall P) parts → Forall P (concat parts).
Proof.
  induction 1 as [| part rest Hpart _ IH]; cbn [concat].
  - constructor.
  - apply Forall_app. split; assumption.
Qed.

Lemma rule_counts (st : Store) (username : string) (m : Metrics) (rule : Rule) :
  calculate_metrics st username = Some m →
  (count (emitted_by rule) (generate_insights st username) ≤ 1)%nat.
Proof.
  intros Hm. unfold count.
  pose proof (block_lengths st username m) as Hlen. unfold blocks in Hlen.
  repeat (apply Forall_cons_1 in Hlen as [? Hlen]).
  destruct rule; to_block Hm; assumption.
Qed.

(** C10: [generate_insights] returns at most 6 insights, at most one for
    each of the six rules, every one of them emitted by some rule and with
    a type among success, warning, error and info. *)
Theorem insight_list_shape (st : Store) (username : string) :
  let insights := generate_insights st username in
  (length insights ≤ 6)%nat
  ∧ (∀ rule, (count (emitted_by rule) insights ≤ 1)%nat)
  ∧ Forall (λ i, In (type i) severities ∧ ∃ rule, emitted_by rule i = true) insights.
Proof.
  intros insights. unfold insights.
  destruct (calculate_metrics st username) as [m |] eqn:Hm.
  - split; [| split].
    + rewrite (generate_insights_blocks _ _ _ Hm).
      apply (concat_short (blocks st username m)), block_lengths.
    + intros rule. by apply (rule_counts st username m).
    + rewrite (generate_insights_blocks _ _ _ Hm).
      apply concat_all, block_severities.
  - unfold generate_insights. rewrite Hm. cbn.
    split; [lia |]. split; [intros _; lia | constructor].
Qed.

(** The bound of 6 is reached. *)
Example six_insights :
  map title (generate_insights Examples.troubled_shop "asha")
  = [ "🏆 Top Performer"; "⚠️ Low Profit Margin"; "📈 Growth Trend";
      "💳 High Debt Alert"; "📦 Low Stock Alert"; "🎯 Product Diversity" ].
Proof. vm_compute. reflexivity. Qed.

End InsightFacts.

(** ** The revenue projection *)

Module ProjectionFacts.
Import Config DataManager Num NumFacts Analytics Reading MetricsFacts.

Lemma insert_by_date_head (s : Sale.t) (sales : list Sale.t) :
  stored_in_date_order (s :: sales) → insert_by_date s sales = s :: sales.
Proof.
  destruct sales as [| x rest]; [reflexivity |].
  intros [Hle _]. cbn. rewrite Hle. reflexivity.
Qed.

(** Sorting by date changes nothing when the stored order is date order. *)
Lemma in_date_order_stored (sales : list Sale.t) :
  stored_in_date_order sales → in_date_order sales = sales.
Proof.
  induction sales as [| s rest IH]; [reflexivity |].
  intros Hsorted. pose proof Hsorted as [_ Hrest].
  unfold in_date_order in *. cbn [foldr]. rewrite (IH Hrest).
  by apply insert_by_date_head.
Qed.

(** C4, as the code has it: the sales are taken in their stored order and
    never sorted by date.  With at least 7 sales the projection is 30 × the
    mean amount of the last 7 stored sales, which are the 7 most recent by
    date when the sales are stored in date order; with fewer than 7 sales
    it is 0. *)
Theorem monthly_projection (st : Store) (username : string) :
  let sales := get_user_data (sales_files st) username "sales" in
  ((7 ≤ length sales)%nat →
     predict_monthly_revenue st username
     = (mean (map Sale.total_amount (tail 7 sales)) * 30)%Q
     ∧ (stored_in_date_order sales → tail 7 sales = most_recent_by_date 7 sales))
  ∧ ((length sales < 7)%nat → predict_monthly_revenue st username = 0%Q).
Proof.
  intros sales. unfold predict_monthly_revenue.
  destruct (is_empty sales) eqn:Hsales.
  - apply is_empty_true in Hsales.
    rewrite (calculate_metrics_none st username Hsales).
    fold sales. rewrite Hsales. cbn. split; [lia | reflexivity].
  - apply is_empty_false in Hsales.
    rewrite (calculate_metrics_some st username Hsales).
    cbn [sales_df]. fold sales. split; intros Hlen.
    + assert (Htest : (length sales <? 7)%nat = false) by (apply Nat.ltb_ge; lia).
      rewrite Htest. split; [reflexivity |].
      intros Hsorted. unfold most_recent_by_date.
      by rewrite in_date_order_stored.
    + assert (Htest : (length sales <? 7)%nat = true) by (apply Nat.ltb_lt; lia).
      by rewrite Htest.
Qed.

Lemma monthly_projection_witness :
  (7 ≤ length (get_user_data (sales_files Examples.growing_shop) "asha" "sales"))%nat
  ∧ (predict_monthly_revenue Examples.growing_shop "asha" == 4500 # 1)%Q
  ∧ (predict_monthly_revenue Examples.small_shop "asha" == 0)%Q.
Proof.
  destruct (monthly_projection Examples.growing_shop "asha") as [Hlong _].
  destruct (monthly_projection Examples.small_shop "asha") as [_ Hshort].
  assert (Hlen : (7 ≤ length (get_user_data (sales_files Examples.growing_shop)
                                            "asha" "sales"))%nat)
    by (vm_compute; lia).
  split; [exact Hlen |]. split.
  - destruct (Hlong Hlen) as [-> _]. vm_compute. reflexivity.
  - rewrite Hshort; [reflexivity | vm_compute; lia].
Defined.

(** C4 as stated fails when a sale is entered late.  In the backdated shop
    the 7 most recent sales by date are the 7 sales of 10, for a projection
    of 300; the code averages the last 7 stored sales, the backdated sale of
    80 among them, and returns 600. *)
Lemma projection_date_order_counterexample :
  (7 ≤ length (get_user_data (sales_files Examples.backdated_shop) "asha" "sales"))%nat
  ∧ (mean (map Sale.total_amount
               (most_recent_by_date 7
                  (get_user_data (sales_files Examples.backdated_shop) "asha" "sales")))
       * 30 == 300 # 1)%Q
  ∧ (predict_monthly_revenue Examples.backdated_shop "asha" == 600 # 1)%Q
  ∧ ¬ (predict_monthly_revenue Examples.backdated_shop "asha"
       == mean (map Sale.total_amount
                  (most_recent_by_date 7
                     (get_user_data (sales_files Examples.backdated_shop)
                                    "asha" "sales")))
          * 30)%Q.
Proof.
  split; [vm_compute; lia |]. repeat split; vm_compute; congruence.
Qed.

End ProjectionFacts.

(** ** Reads and writes of the data manager *)

Module DataManagerLaws.
Import Config DataManager DataManagerFacts.

(** The four data types are stored in four different files. *)
Lemma file_map_cases (data_type filepath : string) :
  file_map !! data_type = Some filepath →
  (data_type = "sales" ∧ filepath = SALES_FILE)
  ∨ (data_type = "inventory" ∧ filepath = INVENTORY_FILE)
  ∨ (data_type = "orders" ∧ filepath = ORDERS_FILE)
  ∨ (data_type = "debts" ∧ filepath = DEBTS_FILE).
Proof.
  unfold file_map. intros Hfile.
  repeat (rewrite lookup_insert in Hfile; case_decide;
          [injection Hfile as <-; subst; tauto |]).
  by rewrite lookup_empty in Hfile.
Qed.

Lemma file_map_inj (a b filepath : string) :
  file_map !! a = Some filepath → file_map !! b = Some filepath → a = b.
Proof.
  intros Ha%file_map_cases Hb%file_map_cases.
  destruct Ha as [[-> ->] | [[-> ->] | [[-> ->] | [-> ->]]]];
    destruct Hb as [[-> Hb] | [[-> Hb] | [[-> Hb] | [-> Hb]]]];
    first [reflexivity | discriminate Hb].
Qed.

Section Rows.
Context {R : Type}.

Implicit Types (fs : gmap string (gmap string (list R))).

(** Appending returns [True] for a known data type, and the user's list read
    afterwards is the list read before with the new row at its end. *)
Theorem save_then_get fs (username data_type : string) (new_data : R) :
  data_type ∈ known_data_types →
  (save_user_data fs username data_type new_data).1 = true
  ∧ get_user_data (save_user_data fs username data_type new_data).2
                  username data_type
    = get_user_data fs username data_type ++ [new_data].
Proof.
  intros Hknown. split; [| by apply get_after_save].
  destruct (file_map_known _ Hknown) as [filepath Hfile].
  unfold save_user_data. by rewrite Hfile.
Qed.

(** Replacing returns [True] for a known data type, and the user's list read
    afterwards is the list that was written. *)
Theorem update_then_get fs (username data_type : string) (updated_list : list R) :
  data_type ∈ known_data_types →
  (update_user_data fs username data_type updated_list).1 = true
  ∧ get_user_data (update_user_data fs username data_type updated_list).2
                  username data_type
    = updated_list.
Proof.
  intros Hknown. split; [| by apply get_after_update].
  destruct (file_map_known _ Hknown) as [filepath Hfile].
  unfold update_user_data. by rewrite Hfile.
Qed.

Lemma load_after_save fs (filepath : string) (data : gmap string (list R)) :
  load_json (save_json fs filepath data) filepath = data.
Proof. unfold load_json, save_json. by rewrite lookup_insert_eq. Qed.

Lemma get_other_file fs (filepath : string) (data : gmap string (list R))
    (username data_type : string) :
  file_map !! data_type ≠ Some filepath →
  get_user_data (save_json fs filepath data) username data_type
  = get_user_data fs username data_type.
Proof.
  intros Hother. unfold get_user_data.
  destruct (file_map !! data_type) as [filepath' |] eqn:Hfile; [| reflexivity].
  unfold load_json, save_json. rewrite lookup_insert_ne; [reflexivity |].
  intros <-. by apply Hother.
Qed.

(** Appending a row for one user to one collection changes nothing that is
    read for another user or from another collection. *)
Theorem save_leaves_others fs (username data_type : string) (new_data : R)
    (username' data_type' : string) :
  username' ≠ username ∨ data_type' ≠ data_type →
  get_user_data (save_user_data fs username data_type new_data).2
                username' data_type'
  = get_user_data fs username' data_type'.
Proof.
  intros Hother. unfold save_user_data.
  destruct (file_map !! data_type) as [filepath |] eqn:Hfile; [| reflexivity].
  cbn [snd].
  destruct (decide (file_map !! data_type' = Some filepath)) as [Hsame | Hdiff];
    [| by apply get_other_file].
  assert (data_type' = data_type) as -> by (by eapply file_map_inj).
  destruct Hother as [Huser | []]; [| reflexivity].
  unfold get_user_data. rewrite Hfile.
  unfold load_json at 1, save_json. rewrite lookup_insert_eq.
  rewrite lookup_alter_ne by done.
  destruct (load_json fs filepath !! username); [reflexivity |].
  by rewrite lookup_insert_ne.
Qed.

(** Replacing one user's list in one collection changes nothing that is read
    for another user or from another collection. *)
Theorem update_leaves_others fs (username data_type : string)
    (updated_list : list R) (username' data_type' : string) :
  username' ≠ username ∨ data_type' ≠ data_type →
  get_user_data (update_user_data fs username data_type updated_list).2
                username' data_type'
  = get_user_data fs username' data_type'.
Proof.
  intros Hother. unfold update_user_data.
  destruct (file_map !! data_type) as [filepath |] eqn:Hfile; [| reflexivity].
  cbn [snd].
  destruct (decide (file_map !! data_type' = Some filepath)) as [Hsame | Hdiff];
    [| by apply get_other_file].
  assert (data_type' = data_type) as -> by (by eapply file_map_inj).
  destruct Hother as [Huser | []]; [| reflexivity].
  unfold get_user_data. rewrite Hfile.
  unfold load_json at 1, save_json. rewrite lookup_insert_eq.
  by rewrite lookup_insert_ne.
Qed.

(** The last replacement wins: replacing a list twice leaves the file
    system that the second replacement alone would leave. *)
Theorem update_twice fs (username data_type : string) (first second : list R) :
  update_user_data (update_user_data fs username data_type first).2
                   username data_type second
  = update_user_data fs username data_type second.
Proof.
  unfold update_user_data.
  destruct (file_map !! data_type) as [filepath |] eqn:Hfile; cbn [snd];
    [| reflexivity].
  rewrite load_after_save. unfold save_json. by rewrite !insert_insert_eq.
Qed.

(** Appending a row is replacing the list by the list read with the row at
    its end: the same result and the same file system. *)
Theorem save_is_update fs (username data_type : string) (new_data : R) :
  save_user_data fs username data_type new_data
  = update_user_data fs username data_type
      (get_user_data fs username data_type ++ [new_data]).
Proof.
  unfold save_user_data, update_user_data, get_user_data.
  destruct (file_map !! data_type) as [filepath |] eqn:Hfile; [| reflexivity].
  f_equal. f_equal. apply map_eq. intros user.
  destruct (load_json fs filepath !! username) as [rows |] eqn:Hrows; cbn [default].
  - destruct (decide (username = user)) as [<- | Hne].
    + by rewrite lookup_alter_eq, lookup_insert_eq, Hrows.
    + by rewrite lookup_alter_ne, lookup_insert_ne.
  - destruct (decide (username = user)) as [<- | Hne].
    + by rewrite lookup_alter_eq, !lookup_insert_eq.
    + by rewrite lookup_alter_ne, !lookup_insert_ne.
Qed.

End Rows.

Ltac known_type :=
  unfold known_data_types; repeat first [apply list_elem_of_here | apply list_elem_of_further].

Lemma save_then_get_witness :
  "sales" ∈ known_data_types
  ∧ get_user_data (save_user_data Examples.sample_files "asha" "sales" 3).2
                  "asha" "sales" = [1; 2; 3]
  ∧ get_user_data (save_user_data Examples.sample_files "ravi" "debts" 7).2
                  "ravi" "debts" = [7].
Proof.
  assert (Hsales : "sales" ∈ known_data_types) by known_type.
  assert (Hdebts : "debts" ∈ known_data_types) by known_type.
  split; [exact Hsales |]. split.
  - destruct (save_then_get Examples.sample_files "asha" "sales" 3 Hsales) as [_ ->].
    reflexivity.
  - destruct (save_then_get Examples.sample_files "ravi" "debts" 7 Hdebts) as [_ ->].
    reflexivity.
Defined.

Lemma update_then_get_witness :
  "sales" ∈ known_data_types
  ∧ get_user_data (update_user_data Examples.sample_files "asha" "sales" [9]).2
                  "asha" "sales" = [9].
Proof.
  assert (Hsales : "sales" ∈ known_data_types) by known_type.
  split; [exact Hsales |].
  apply (update_then_get Examples.sample_files "asha" "sales" [9] Hsales).
Defined.

Lemma save_leaves_others_witness :
  ("asha" ≠ "ravi" ∨ "sales" ≠ "sales")
  ∧ get_user_data (save_user_data Examples.sample_files "ravi" "sales" 7).2
                  "asha" "sales" = [1; 2].
Proof.
  assert (Hother : "asha" ≠ "ravi" ∨ "sales" ≠ "sales") by (left; discriminate).
  split; [exact Hother |].
  rewrite (save_leaves_others Examples.sample_files "ravi" "sales" 7 "asha" "sales"
             Hother).
  reflexivity.
Defined.

Lemma update_leaves_others_witness :
  ("asha" ≠ "asha" ∨ "sales" ≠ "orders")
  ∧ get_user_data (update_user_data Examples.sample_files "asha" "orders" [7]).2
                  "asha" "sales" = [1; 2].
Proof.
  assert (Hother : "asha" ≠ "asha" ∨ "sales" ≠ "orders") by (right; discriminate).
  split; [exact Hother |].
  rewrite (update_leaves_others Examples.sample_files "asha" "orders" [7]
             "asha" "sales" Hother).
  reflexivity.
Defined.

End DataManagerLaws.

(** ** Accounts: registration, login and the initial files *)

Module AuthFacts.
Import Config DataManager Analytics Auth.

Lemma get_after_reset {R} (fs : gmap string (gmap string (list R)))
    (file username data_type : string) :
  file_map !! data_type = Some file →
  get_user_data (reset_collection fs file username) username data_type = [].
Proof.
  intros Hfile. unfold get_user_data, reset_collection. rewrite Hfile.
  unfold load_json, Json.save_json. by rewrite !lookup_insert_eq.
Qed.

Lemma get_other_after_reset {R} (fs : gmap string (gmap string (list R)))
    (file username username' data_type : string) :
  username' ≠ username →
  get_user_data (reset_collection fs file username) username' data_type
  = get_user_data fs username' data_type.
Proof.
  intros Hother. unfold get_user_data, reset_collection.
  destruct (file_map !! data_type) as [filepath |]; [| reflexivity].
  unfold load_json, Json.save_json, Json.load_json.
  destruct (decide (file = filepath)) as [-> | Hfile].
  - rewrite lookup_insert_eq. by rewrite lookup_insert_ne.
  - by rewrite lookup_insert_ne.
Qed.

Lemma get_after_create {R} (fs : gmap string (gmap string (list R)))
    (file username data_type : string) :
  get_user_data (create_if_missing fs file) username data_type
  = get_user_data fs username data_type.
Proof.
  unfold create_if_missing, Json.file_exists.
  destruct (fs !! file) as [data |] eqn:Hfs; cbn [negb]; [reflexivity |].
  unfold get_user_data.
  destruct (file_map !! data_type) as [filepath |]; [| reflexivity].
  unfold load_json, Json.save_json.
  destruct (decide (file = filepath)) as [-> | Hfile].
  - by rewrite lookup_insert_eq, Hfs.
  - by rewrite lookup_insert_ne.
Qed.

Lemma create_if_missing_exists {V} (fs : gmap string (gmap string V)) (file : string) :
  Json.file_exists (create_if_missing fs file) file = true.
Proof.
  unfold create_if_missing, Json.file_exists.
  destruct (fs !! file) as [data |] eqn:Hfs; cbn [negb].
  - by rewrite Hfs.
  - unfold Json.save_json. by rewrite lookup_insert_eq.
Qed.

Lemma create_if_missing_twice {V} (fs : gmap string (gmap string V)) (file : string) :
  create_if_missing (create_if_missing fs file) file = create_if_missing fs file.
Proof.
  unfold create_if_missing at 1. by rewrite create_if_missing_exists.
Qed.

Section Hashing.
Variable hash_password : string → string.

(** A username that is taken is refused, and nothing is written. *)
Theorem register_taken (d : Disk)
    (username password business_name business_type now_user now_business : string) :
  is_Some (Json.load_json (users_files d) USERS_FILE !! username) →
  register_user hash_password d username password business_name business_type
                now_user now_business
  = ((false, "Username already exists"), d).
Proof.
  intros [account Haccount]. unfold register_user. by rewrite Haccount.
Qed.

(** After a successful registration the user logs in with the password
    chosen, as a user of the business named, and is refused with any
    password that has another digest. *)
Theorem register_then_login (d : Disk)
    (username password business_name business_type now_user now_business : string) :
  let registered :=
    register_user hash_password d username password business_name business_type
                  now_user now_business in
  Json.load_json (users_files d) USERS_FILE !! username = None →
  registered.1 = (true, "Registration successful!")
  ∧ login_user hash_password registered.2 username password
    = (true, Some "user", Some business_name)
  ∧ ∀ other, hash_password other ≠ hash_password password →
      login_user hash_password registered.2 username other = (false, None, None).
Proof.
  intros registered Hfree. unfold registered, register_user. rewrite Hfree.
  cbn [fst snd]. split; [reflexivity |].
  unfold login_user. cbn [users_files].
  unfold Json.load_json at 1 3, Json.save_json. rewrite !lookup_insert_eq.
  cbn [Account.password Account.type Account.business_name default].
  split.
  - by rewrite String.eqb_refl.
  - intros other Hother.
    destruct (String.eqb_spec (hash_password password) (hash_password other));
      congruence.
Qed.

(** A successful registration leaves the new user with four empty
    collections, whatever the files held under that name before. *)
Theorem register_resets_collections (d : Disk)
    (username password business_name business_type now_user now_business : string) :
  let st :=
    data_files (register_user hash_password d username password business_name
                              business_type now_user now_business).2 in
  Json.load_json (users_files d) USERS_FILE !! username = None →
  get_user_data (sales_files st) username "sales" = []
  ∧ get_user_data (inventory_files st) username "inventory" = []
  ∧ get_user_data (orders_files st) username "orders" = []
  ∧ get_user_data (debts_files st) username "debts" = [].
Proof.
  intros st Hfree. unfold st, register_user. rewrite Hfree.
  cbn [snd data_files sales_files inventory_files orders_files debts_files].
  repeat split; by apply get_after_reset.
Qed.

(** A registration changes nothing for the other users: they log in as
    before and read the same four collections. *)
Theorem register_leaves_others (d : Disk)
    (username password business_name business_type now_user now_business : string)
    (other other_password : string) :
  let d' :=
    (register_user hash_password d username password business_name
                   business_type now_user now_business).2 in
  other ≠ username →
  login_user hash_password d' other other_password
  = login_user hash_password d other other_password
  ∧ get_user_data (sales_files (data_files d')) other "sales"
    = get_user_data (sales_files (data_files d)) other "sales"
  ∧ get_user_data (inventory_files (data_files d')) other "inventory"
    = get_user_data (inventory_files (data_files d)) other "inventory"
  ∧ get_user_data (orders_files (data_files d')) other "orders"
    = get_user_data (orders_files (data_files d)) other "orders"
  ∧ get_user_data (debts_files (data_files d')) other "debts"
    = get_user_data (debts_files (data_files d)) other "debts".
Proof.
  intros d' Hother. unfold d', register_user.
  destruct (Json.load_json (users_files d) USERS_FILE !! username) as [taken |];
    [by repeat split |].
  cbn [snd data_files sales_files inventory_files orders_files debts_files].
  split; [| repeat split; by apply get_other_after_reset].
  unfold login_user. cbn [users_files].
  unfold Json.load_json at 1, Json.save_json. rewrite lookup_insert_eq.
  by rewrite lookup_insert_ne.
Qed.

(** When there is no users file yet, the initial files let the default
    admin log in with the default password, and hold no business account. *)
Theorem init_admin_login (d : Disk) (now : string) :
  let d' := init_data_files hash_password d now in
  Json.file_exists (users_files d) USERS_FILE = false →
  login_user hash_password d' DEFAULT_ADMIN_USERNAME DEFAULT_ADMIN_PASSWORD
  = (true, Some "admin", Some "Admin")
  ∧ user_list d' = ∅.
Proof.
  intros d' Hmissing. unfold d', init_data_files. rewrite Hmissing. cbn [negb].
  split.
  - unfold login_user. cbn [users_files].
    unfold Json.load_json, Json.save_json. rewrite lookup_insert_eq.
    rewrite lookup_singleton_eq. cbn. by rewrite String.eqb_refl.
  - unfold user_list. cbn [users_files].
    unfold Json.load_json, Json.save_json. rewrite lookup_insert_eq.
    apply map_filter_singleton_False. cbn. discriminate.
Qed.

(** After a successful registration the admin panel lists the new business
    next to those it listed before: one business more. *)
Theorem registered_user_is_listed (d : Disk)
    (username password business_name business_type now_user now_business : string) :
  let d' :=
    (register_user hash_password d username password business_name
                   business_type now_user now_business).2 in
  Json.load_json (users_files d) USERS_FILE !! username = None →
  user_list d'
  = <[username := {| Account.password := hash_password password;
                     Account.type := "user";
                     Account.business_name := Some business_name;
                     Account.business_type := Some business_type;
                     Account.created_at := now_user |}]> (user_list d)
  ∧ size (user_list d') = S (size (user_list d)).
Proof.
  intros d' Hfree.
  assert (Hlist : user_list d'
                  = <[username := {| Account.password := hash_password password;
                                     Account.type := "user";
                                     Account.business_name := Some business_name;
                                     Account.business_type := Some business_type;
                                     Account.created_at := now_user |}]>
                      (user_list d)).
  { unfold d', register_user. rewrite Hfree. unfold user_list. cbn [snd users_files].
    unfold Json.load_json at 1, Json.save_json. rewrite lookup_insert_eq.
    by rewrite map_filter_insert_True. }
  split; [exact Hlist |].
  rewrite Hlist. apply map_size_insert_None.
  unfold user_list. apply map_lookup_filter_None. by left.
Qed.

(** Initialising again changes nothing, at whatever time it is done. *)
Theorem init_twice (d : Disk) (now later : string) :
  init_data_files hash_password (init_data_files hash_password d now) later
  = init_data_files hash_password d now.
Proof.
  unfold init_data_files at 1.
  set (d' := init_data_files hash_password d now).
  assert (Husers : Json.file_exists (users_files d') USERS_FILE = true).
  { unfold d', init_data_files. cbn [users_files]. unfold Json.file_exists.
    destruct (users_files d !! USERS_FILE) as [users |] eqn:Hfs; cbn [negb].
    - by rewrite Hfs.
    - unfold Json.save_json. by rewrite lookup_insert_eq. }
  rewrite Husers. cbn [negb].
  unfold d' at 2 3 4 5 6 7, init_data_files.
  cbn [users_files businesses_files data_files sales_files inventory_files
       orders_files debts_files].
  rewrite !create_if_missing_twice. reflexivity.
Qed.

(** Initialising never changes what is read: every account logs in as
    before when the users file exists, and every collection of every user
    reads the same. *)
Theorem init_keeps_data (d : Disk) (now username password : string) :
  let d' := init_data_files hash_password d now in
  (Json.file_exists (users_files d) USERS_FILE = true →
   login_user hash_password d' username password
   = login_user hash_password d username password)
  ∧ get_user_data (sales_files (data_files d')) username "sales"
    = get_user_data (sales_files (data_files d)) username "sales"
  ∧ get_user_data (inventory_files (data_files d')) username "inventory"
    = get_user_data (inventory_files (data_files d)) username "inventory"
  ∧ get_user_data (orders_files (data_files d')) username "orders"
    = get_user_data (orders_files (data_files d)) username "orders"
  ∧ get_user_data (debts_files (data_files d')) username "debts"
    = get_user_data (debts_files (data_files d)) username "debts".
Proof.
  intros d'. unfold d', init_data_files.
  cbn [users_files data_files sales_files inventory_files orders_files debts_files].
  split; [| repeat split; apply get_after_create].
  intros Hexists. unfold login_user. cbn [users_files]. by rewrite Hexists.
Qed.

End Hashing.

Lemma register_taken_witness :
  is_Some (Json.load_json (users_files AuthExamples.asha_disk) USERS_FILE !! "asha")
  ∧ register_user AuthExamples.digest_stub AuthExamples.asha_disk "asha" "other12"
                  "Copy Stores" "Other" "2024-01-03 08:00:00" "2024-01-03 08:00:01"
    = ((false, "Username already exists"), AuthExamples.asha_disk).
Proof.
  assert (Htaken : is_Some (Json.load_json (users_files AuthExamples.asha_disk)
                                           USERS_FILE !! "asha"))
    by (eexists; vm_compute; reflexivity).
  split; [exact Htaken |].
  exact (register_taken AuthExamples.digest_stub AuthExamples.asha_disk "asha"
           "other12" "Copy Stores" "Other" "2024-01-03 08:00:00"
           "2024-01-03 08:00:01" Htaken).
Defined.

Lemma register_then_login_witness :
  Json.load_json (users_files AuthExamples.fresh_disk) USERS_FILE !! "asha" = None
  ∧ login_user AuthExamples.digest_stub AuthExamples.asha_disk "asha" "secret1"
    = (true, Some "user", Some "Asha Stores")
  ∧ login_user AuthExamples.digest_stub AuthExamples.asha_disk "asha" "secret2"
    = (false, None, None).
Proof.
  assert (Hfree : Json.load_json (users_files AuthExamples.fresh_disk) USERS_FILE
                  !! "asha" = None) by reflexivity.
  split; [exact Hfree |].
  destruct (register_then_login AuthExamples.digest_stub AuthExamples.fresh_disk
              "asha" "secret1" "Asha Stores" "Retail Shop"
              "2024-01-02 10:00:00" "2024-01-02 10:00:01" Hfree)
    as (_ & Hlogin & Hrefused).
  split; [exact Hlogin |].
  apply Hrefused. vm_compute. discriminate.
Defined.

(** Rows stored under a name that has no account are gone once the name is
    registered. *)
Lemma register_resets_collections_witness :
  Json.load_json (users_files AuthExamples.orphan_disk) USERS_FILE !! "asha" = None
  ∧ length (get_user_data (sales_files (data_files AuthExamples.orphan_disk))
                          "asha" "sales") = 3%nat
  ∧ get_user_data
      (sales_files
         (data_files
            (register_user AuthExamples.digest_stub AuthExamples.orphan_disk "asha"
                           "secret1" "Asha Stores" "Retail Shop"
                           "2024-01-02 10:00:00" "2024-01-02 10:00:01").2))
      "asha" "sales" = [].
Proof.
  assert (Hfree : Json.load_json (users_files AuthExamples.orphan_disk) USERS_FILE
                  !! "asha" = None) by reflexivity.
  split; [exact Hfree |]. split; [reflexivity |].
  apply (register_resets_collections AuthExamples.digest_stub
           AuthExamples.orphan_disk "asha" "secret1" "Asha Stores" "Retail Shop"
           "2024-01-02 10:00:00" "2024-01-02 10:00:01" Hfree).
Defined.

Lemma init_admin_login_witness :
  Json.file_exists (users_files blank_disk) USERS_FILE = false
  ∧ login_user AuthExamples.digest_stub AuthExamples.fresh_disk "admin" "admin123"
    = (true, Some "admin", Some "Admin")
  ∧ login_user AuthExamples.digest_stub AuthExamples.fresh_disk "admin" "admin"
    = (false, None, None).
Proof.
  assert (Hmissing : Json.file_exists (users_files blank_disk) USERS_FILE = false)
    by reflexivity.
  split; [exact Hmissing |]. split; [| reflexivity].
  apply (init_admin_login AuthExamples.digest_stub blank_disk
           "2024-01-01 09:00:00" Hmissing).
Defined.

Lemma registered_user_is_listed_witness :
  Json.load_json (users_files AuthExamples.fresh_disk) USERS_FILE !! "asha" = None
  ∧ size (user_list AuthExamples.fresh_disk) = 0%nat
  ∧ size (user_list AuthExamples.asha_disk) = 1%nat.
Proof.
  assert (Hfree : Json.load_json (users_files AuthExamples.fresh_disk) USERS_FILE
                  !! "asha" = None) by reflexivity.
  assert (Hnone : size (user_list AuthExamples.fresh_disk) = 0%nat) by reflexivity.
  split; [exact Hfree |]. split; [exact Hnone |].
  destruct (registered_user_is_listed AuthExamples.digest_stub AuthExamples.fresh_disk
              "asha" "secret1" "Asha Stores" "Retail Shop"
              "2024-01-02 10:00:00" "2024-01-02 10:00:01" Hfree) as [_ Hsize].
  unfold AuthExamples.asha_disk. rewrite Hsize, Hnone. reflexivity.
Defined.

Lemma register_leaves_others_witness :
  "asha" ≠ "ravi"
  ∧ login_user AuthExamples.digest_stub
      (register_user AuthExamples.digest_stub AuthExamples.asha_disk "ravi"
                     "ravipass" "Ravi Traders" "Grocery Store"
                     "2024-01-05 10:00:00" "2024-01-05 10:00:01").2
      "asha" "secret1"
    = (true, Some "user", Some "Asha Stores").
Proof.
  assert (Hother : "asha" ≠ "ravi") by discriminate.
  split; [exact Hother |].
  destruct (register_leaves_others AuthExamples.digest_stub AuthExamples.asha_disk
              "ravi" "ravipass" "Ravi Traders" "Grocery Store"
              "2024-01-05 10:00:00" "2024-01-05 10:00:01" "asha" "secret1" Hother)
    as [-> _].
  vm_compute. reflexivity.
Defined.

End AuthFacts.

(** ** Grouping by product and sorting by total *)

Module GroupFacts.
Import Num Analytics Grouping.

Lemma ascii_compare_refl (c : ascii) : Ascii.compare c c = Eq.
Proof. unfold Ascii.compare. apply N.compare_refl. Qed.

Lemma ascii_compare_lt_trans (a b c : ascii) :
  Ascii.compare a b = Lt → Ascii.compare b c = Lt → Ascii.compare a c = Lt.
Proof.
  unfold Ascii.compare. rewrite !N.compare_lt_iff. apply N.lt_trans.
Qed.

Lemma string_compare_refl (s : string) : String.compare s s = Eq.
Proof.
  induction s as [| c s IH]; [reflexivity |].
  cbn. by rewrite ascii_compare_refl.
Qed.

Lemma string_compare_eq (s t : string) : String.compare s t = Eq ↔ s = t.
Proof.
  split; [apply String.compare_eq_iff | intros ->; apply string_compare_refl].
Qed.

Lemma string_compare_lt_trans (s t u : string) :
  String.compare s t = Lt → String.compare t u = Lt → String.compare s u = Lt.
Proof.
  revert t u. induction s as [| a s IH]; intros [| b t] [| c u]; cbn;
    try congruence.
  destruct (Ascii.compare a b) eqn:Hab; try discriminate;
    destruct (Ascii.compare b c) eqn:Hbc; try discriminate; intros Hst Htu.
  - apply Ascii.compare_eq_iff in Hab, Hbc. subst.
    rewrite ascii_compare_refl. by eapply IH.
  - apply Ascii.compare_eq_iff in Hab. subst. by rewrite Hbc.
  - apply Ascii.compare_eq_iff in Hbc. subst. by rewrite Hab.
  - by rewrite (ascii_compare_lt_trans _ _ _ Hab Hbc).
Qed.

Lemma string_compare_gt_lt (s t : string) :
  String.compare s t = Gt → String.compare t s = Lt.
Proof.
  intros Hgt. rewrite String.compare_antisym, Hgt. reflexivity.
Qed.

Lemma sumZ_from (xs : list Z) (a : Z) : fold_left Z.add xs a = (a + sumZ xs)%Z.
Proof.
  unfold sumZ. revert a. induction xs as [| x xs IH]; intros a; cbn [fold_left].
  - lia.
  - rewrite (IH (a + x)%Z), (IH (0 + x)%Z). lia.
Qed.

Lemma sumZ_cons (x : Z) (xs : list Z) : sumZ (x :: xs) = (x + sumZ xs)%Z.
Proof. unfold sumZ at 1. cbn. apply sumZ_from. Qed.

Lemma sumZ_app (xs ys : list Z) : sumZ (xs ++ ys) = (sumZ xs + sumZ ys)%Z.
Proof.
  induction xs as [| x xs IH]; [reflexivity |].
  cbn [app]. rewrite !sumZ_cons, IH. lia.
Qed.

Lemma total_of_cons (key : string) (e : string * Z) (groups : list (string * Z)) :
  total_of key (e :: groups)
  = ((if String.eqb e.1 key then e.2 else 0) + total_of key groups)%Z.
Proof.
  unfold total_of. cbn [List.filter].
  destruct (String.eqb e.1 key); [cbn [map]; by rewrite sumZ_cons | reflexivity].
Qed.

Lemma wrap64_int64 (z : Z) : int64 (wrap64 z).
Proof.
  unfold int64, wrap64.
  pose proof (Z.mod_pos_bound (z + 2 ^ 63) (2 ^ 64) eq_refl). lia.
Qed.

Lemma wrap64_id (z : Z) : int64 z → wrap64 z = z.
Proof.
  unfold int64, wrap64. intros Hz.
  rewrite Z.mod_small by lia. lia.
Qed.

Lemma wrap64_add_l (a b : Z) : wrap64 (wrap64 a + b) = wrap64 (a + b).
Proof.
  unfold wrap64. f_equal.
  replace ((a + 2 ^ 63) mod 2 ^ 64 - 2 ^ 63 + b + 2 ^ 63)%Z
    with ((a + 2 ^ 63) mod 2 ^ 64 + b)%Z by lia.
  rewrite Zplus_mod_idemp_l. f_equal. lia.
Qed.

Lemma wrap64_add_r (a b : Z) : wrap64 (a + wrap64 b) = wrap64 (a + b).
Proof. rewrite (Z.add_comm a), wrap64_add_l. f_equal. lia. Qed.

Lemma wrap64_congr (a x y : Z) :
  wrap64 x = wrap64 y → wrap64 (a + x) = wrap64 (a + y).
Proof.
  intros Hxy. rewrite <- (wrap64_add_r a x), <- (wrap64_add_r a y). by rewrite Hxy.
Qed.

(** Adding a row to the groups adds its quantity to the total of its
    product and to no other, in int64 arithmetic. *)
Lemma total_of_group_add (key k : string) (q : Z) (groups : list (string * Z)) :
  wrap64 (total_of key (group_add k q groups))
  = wrap64 (total_of key groups + (if String.eqb k key then q else 0)).
Proof.
  induction groups as [| [k' total] rest IH]; cbn [group_add].
  - rewrite total_of_cons. cbn. unfold total_of. cbn. f_equal. lia.
  - destruct (String.compare k k') eqn:Hcmp.
    + apply string_compare_eq in Hcmp. subst k'.
      rewrite !total_of_cons. cbn [fst snd]. destruct (String.eqb k key).
      * rewrite wrap64_add_l. f_equal. lia.
      * f_equal. lia.
    + rewrite !total_of_cons. cbn [fst snd]. f_equal. lia.
    + rewrite !total_of_cons. cbn [fst snd].
      rewrite (wrap64_congr _ _ _ IH). f_equal. lia.
Qed.

Lemma group_add_int64 (k : string) (q : Z) (groups : list (string * Z)) :
  int64 q → Forall (λ e, int64 e.2) groups →
  Forall (λ e, int64 e.2) (group_add k q groups).
Proof.
  intros Hq. induction 1 as [| [k' total] rest Htotal Hrest IH]; cbn [group_add].
  - apply Forall_cons_2; [exact Hq | apply Forall_nil_2].
  - destruct (String.compare k k').
    + apply Forall_cons_2; [apply wrap64_int64 | exact Hrest].
    + apply Forall_cons_2; [exact Hq |]. by apply Forall_cons_2.
    + by apply Forall_cons_2.
Qed.

Lemma group_add_keys (key k : string) (q : Z) (groups : list (string * Z)) :
  In key (map fst (group_add k q groups)) ↔ key = k ∨ In key (map fst groups).
Proof.
  induction groups as [| [k' total] rest IH]; cbn [group_add].
  - cbn. intuition congruence.
  - destruct (String.compare k k') eqn:Hcmp.
    + apply string_compare_eq in Hcmp. subst k'. cbn. intuition congruence.
    + cbn. intuition congruence.
    + cbn [map fst In]. rewrite IH. intuition congruence.
Qed.

Lemma group_add_increasing (k : string) (q : Z) (groups : list (string * Z)) :
  increasing groups → increasing (group_add k q groups).
Proof.
  induction groups as [| [k' total] rest IH]; cbn [group_add].
  - cbn. auto.
  - intros [Hhead Hrest]. destruct (String.compare k k') eqn:Hcmp.
    + split; assumption.
    + split; [| split; assumption].
      constructor; [exact Hcmp |].
      eapply Forall_impl; [exact Hhead |].
      intros e He. cbn in *. by eapply string_compare_lt_trans.
    + split; [| by apply IH].
      apply List.Forall_forall. intros [k'' v] Hin. cbn [fst].
      assert (Hkey : In k'' (map fst (group_add k q rest)))
        by (apply in_map_iff; by exists (k'', v)).
      apply group_add_keys in Hkey as [-> | Hkey].
      * by apply string_compare_gt_lt.
      * apply in_map_iff in Hkey as ([k3 v3] & <- & Hin3).
        rewrite List.Forall_forall in Hhead. by apply (Hhead (k3, v3)).
Qed.

Lemma increasing_total (groups : list (string * Z)) (key : string) (v : Z) :
  increasing groups → In (key, v) groups → total_of key groups = v.
Proof.
  induction groups as [| [k' total] rest IH]; [intros _ [] |].
  intros [Hhead Hrest] [Heq | Hin]; rewrite total_of_cons; cbn [fst snd].
  - injection Heq as -> ->. rewrite String.eqb_refl.
    assert (Hnone : total_of key rest = 0%Z).
    { clear IH Hrest. induction rest as [| [k2 v2] rest IH]; [reflexivity |].
      apply Forall_cons_1 in Hhead as [Hlt Hhead]. cbn in Hlt.
      rewrite total_of_cons. cbn [fst snd].
      destruct (String.eqb_spec k2 key) as [-> | _].
      - by rewrite string_compare_refl in Hlt.
      - by rewrite IH. }
    lia.
  - rewrite (IH Hrest Hin).
    destruct (String.eqb_spec k' key) as [-> | _]; [| lia].
    rewrite List.Forall_forall in Hhead. specialize (Hhead _ Hin). cbn in Hhead.
    by rewrite string_compare_refl in Hhead.
Qed.

Lemma quantity_sold_snoc (key : string) (sales : list Sale.t) (s : Sale.t) :
  quantity_sold key (sales ++ [s])
  = (quantity_sold key sales
     + (if String.eqb (Sale.product s) key then Sale.quantity s else 0))%Z.
Proof.
  unfold quantity_sold. rewrite List.filter_app, map_app, sumZ_app. cbn.
  destruct (String.eqb (Sale.product s) key); cbn; unfold sumZ; cbn; lia.
Qed.

Lemma quantity_sold_bounds (product : string) (sales : list Sale.t) :
  Forall (λ s, (0 <= Sale.quantity s)%Z) sales →
  (0 <= quantity_sold product sales <= sumZ (map Sale.quantity sales))%Z.
Proof.
  unfold quantity_sold.
  induction 1 as [| s rest Hs _ IH]; cbn [List.filter map].
  - unfold sumZ. cbn. lia.
  - rewrite sumZ_cons.
    destruct (String.eqb (Sale.product s) product); cbn [map];
      rewrite ?sumZ_cons; lia.
Qed.

(** The groups of a sales list: keys in increasing order, one per product
    sold, each with the int64 total of the quantities of that product. *)
Lemma groupby_sum_spec (sales : list Sale.t) :
  increasing (groupby_sum sales)
  ∧ (∀ key, wrap64 (total_of key (groupby_sum sales))
            = wrap64 (quantity_sold key sales))
  ∧ (∀ key, In key (map fst (groupby_sum sales)) ↔ In key (map Sale.product sales)).
Proof.
  unfold groupby_sum.
  induction sales as [| s sales IH] using rev_ind.
  - cbn. split; [exact I |]. split; [reflexivity | tauto].
  - rewrite fold_left_app. cbn [fold_left].
    destruct IH as (Hinc & Htotal & Hkeys).
    split; [by apply group_add_increasing |]. split.
    + intros key. rewrite total_of_group_add, quantity_sold_snoc.
      rewrite !(Z.add_comm _ (if String.eqb (Sale.product s) key then _ else _)).
      by apply wrap64_congr.
    + intros key. rewrite group_add_keys, Hkeys, map_app, in_app_iff. cbn.
      intuition congruence.
Qed.

Lemma groupby_sum_int64 (sales : list Sale.t) :
  Forall (λ s, int64 (Sale.quantity s)) sales →
  Forall (λ e, int64 e.2) (groupby_sum sales).
Proof.
  unfold groupby_sum.
  induction sales as [| s sales IH] using rev_ind; [constructor |].
  intros [Hsales Hs]%Forall_app. rewrite fold_left_app. cbn [fold_left].
  apply group_add_int64; [| by apply IH].
  by apply Forall_cons_1 in Hs as [Hs _].
Qed.

Lemma groupby_sum_value (sales : list Sale.t) (key : string) (v : Z) :
  Forall (λ s, int64 (Sale.quantity s)) sales →
  In (key, v) (groupby_sum sales) →
  v = wrap64 (quantity_sold key sales).
Proof.
  intros Hrange%groupby_sum_int64 Hin.
  destruct (groupby_sum_spec sales) as (Hinc & Htotal & _).
  rewrite <- Htotal, (increasing_total _ _ _ Hinc Hin).
  symmetry. apply wrap64_id.
  rewrite List.Forall_forall in Hrange. by apply (Hrange (key, v)).
Qed.

(** Without overflow the totals of the groups add up to the quantity of all
    rows. *)
Lemma group_add_sum (k : string) (q : Z) (groups : list (string * Z)) :
  Forall (λ e, (0 <= e.2)%Z) groups → (0 <= q)%Z →
  (sumZ (map snd groups) + q < 2 ^ 63)%Z →
  Forall (λ e, (0 <= e.2)%Z) (group_add k q groups)
  ∧ sumZ (map snd (group_add k q groups)) = (sumZ (map snd groups) + q)%Z.
Proof.
  intros Hgroups Hq.
  induction Hgroups as [| [k' total] rest Htotal Hrest IH]; cbn [group_add].
  - intros _. split; [by apply Forall_cons_2 |].
    cbn [map snd]. rewrite sumZ_cons. lia.
  - cbn [map snd]. rewrite sumZ_cons. cbn [snd] in Htotal. intros Hbound.
    assert (Hsum : (0 <= sumZ (map snd rest))%Z).
    { clear -Hrest. induction Hrest as [| e rest He _ IH]; [by unfold sumZ |].
      cbn [map]. rewrite sumZ_cons. lia. }
    destruct (String.compare k k').
    + assert (Hexact : wrap64 (total + q) = (total + q)%Z)
        by (apply wrap64_id; unfold int64; lia).
      rewrite Hexact. split; [apply Forall_cons_2; [cbn; lia | exact Hrest] |].
      cbn [map snd]. rewrite sumZ_cons. lia.
    + split; [apply Forall_cons_2; [exact Hq | by apply Forall_cons_2] |].
      cbn [map snd]. rewrite !sumZ_cons. lia.
    + destruct IH as [Hpositive Hadded]; [lia |].
      split; [by apply Forall_cons_2 |].
      cbn [map snd]. rewrite sumZ_cons, Hadded. lia.
Qed.

Lemma sumZ_snoc (xs : list Z) (x : Z) : sumZ (xs ++ [x]) = (sumZ xs + x)%Z.
Proof. rewrite sumZ_app. unfold sumZ at 2. cbn. lia. Qed.

Lemma sumZ_nonneg (xs : list Z) : Forall (λ x, (0 <= x)%Z) xs → (0 <= sumZ xs)%Z.
Proof.
  induction 1 as [| x xs Hx _ IH]; [by unfold sumZ |]. rewrite sumZ_cons. lia.
Qed.

Lemma groupby_sum_total (sales : list Sale.t) :
  Forall (λ s, (0 <= Sale.quantity s)%Z) sales →
  (sumZ (map Sale.quantity sales) < 2 ^ 63)%Z →
  Forall (λ e, (0 <= e.2)%Z) (groupby_sum sales)
  ∧ sumZ (map snd (groupby_sum sales)) = sumZ (map Sale.quantity sales).
Proof.
  unfold groupby_sum.
  induction sales as [| s sales IH] using rev_ind; [by split |].
  intros [Hsales Hs]%Forall_app. apply Forall_cons_1 in Hs as [Hs _].
  rewrite map_app. cbn [map]. rewrite sumZ_snoc. intros Hbound.
  assert (Hprefix : (0 <= sumZ (map Sale.quantity sales))%Z).
  { apply sumZ_nonneg. by apply Forall_map. }
  destruct IH as [Hpositive Htotal]; [exact Hsales | lia |].
  rewrite fold_left_app. cbn [fold_left].
  destruct (group_add_sum (Sale.product s) (Sale.quantity s) _ Hpositive Hs)
    as [Hpositive' Hadded]; [rewrite Htotal; lia |].
  split; [exact Hpositive' |]. by rewrite Hadded, Htotal.
Qed.

(** Sorting by total keeps the entries and puts the largest total first. *)
Lemma insert_desc_In (e entry : string * Z) (sorted : list (string * Z)) :
  In e (insert_desc entry sorted) ↔ e = entry ∨ In e sorted.
Proof.
  induction sorted as [| x rest IH]; cbn [insert_desc].
  - cbn. intuition.
  - destruct (x.2 <=? entry.2)%Z; cbn [In]; [intuition |].
    rewrite IH. intuition.
Qed.

Lemma sort_values_desc_In (e : string * Z) (entries : list (string * Z)) :
  In e (sort_values_desc entries) ↔ In e entries.
Proof.
  unfold sort_values_desc.
  induction entries as [| x rest IH]; [reflexivity |].
  cbn [foldr]. rewrite insert_desc_In, IH. cbn. intuition.
Qed.

Lemma insert_desc_decreasing (entry : string * Z) (sorted : list (string * Z)) :
  decreasing sorted → decreasing (insert_desc entry sorted).
Proof.
  induction sorted as [| x rest IH]; cbn [insert_desc].
  - cbn. auto.
  - intros [Hhead Hrest]. destruct (x.2 <=? entry.2)%Z eqn:Hcmp.
    + apply Z.leb_le in Hcmp. split; [| split; assumption].
      constructor; [exact Hcmp |].
      eapply Forall_impl; [exact Hhead |]. intros e He. cbn in *. lia.
    + apply Z.leb_gt in Hcmp. split; [| by apply IH].
      apply List.Forall_forall. intros e [-> | Hin]%insert_desc_In; [lia |].
      rewrite List.Forall_forall in Hhead. by apply Hhead.
Qed.

Lemma sort_values_desc_decreasing (entries : list (string * Z)) :
  decreasing (sort_values_desc entries).
Proof.
  unfold sort_values_desc.
  induction entries as [| x rest IH]; [exact I |].
  cbn [foldr]. by apply insert_desc_decreasing.
Qed.

Lemma sort_values_desc_nil (entries : list (string * Z)) :
  sort_values_desc entries = [] → entries = [].
Proof.
  destruct entries as [| x rest]; [reflexivity |].
  intros Hnil. assert (Hin : In x (sort_values_desc (x :: rest)))
    by (apply sort_values_desc_In; by left).
  rewrite Hnil in Hin. destruct Hin.
Qed.

Lemma groupby_sum_nonempty (sales : list Sale.t) :
  sales ≠ [] → sort_values_desc (groupby_sum sales) ≠ [].
Proof.
  intros Hsales Hsorted%sort_values_desc_nil.
  destruct sales as [| s sales]; [done |].
  destruct (groupby_sum_spec (s :: sales)) as (_ & _ & Hkeys).
  assert (Hin : In (Sale.product s) (map fst (groupby_sum (s :: sales))))
    by (apply Hkeys; by left).
  rewrite Hsorted in Hin. destruct Hin.
Qed.

(** The first entry after grouping and sorting, for int64 quantities: a
    product that was sold, with the int64 total of its quantities, which the
    int64 total of no product exceeds. *)
(* Quantities of a concrete list of rows are int64 values. *)
Ltac int64_rows :=
  match goal with
  | |- Forall ?P ?rows =>
      let rows' := eval vm_compute in rows in
      change (Forall P rows');
      repeat (apply List.Forall_cons;
              [ vm_compute; split; [discriminate | reflexivity] |]);
      apply List.Forall_nil
  end.

Lemma top_of_sorted_groups (sales : list Sale.t) :
  sales ≠ [] →
  Forall (λ s, int64 (Sale.quantity s)) sales →
  ∃ top_product top_quantity rest,
    sort_values_desc (groupby_sum sales) = (top_product, top_quantity) :: rest
    ∧ In top_product (map Sale.product sales)
    ∧ top_quantity = wrap64 (quantity_sold top_product sales)
    ∧ ∀ product, In product (map Sale.product sales) →
        (wrap64 (quantity_sold product sales) <= top_quantity)%Z.
Proof.
  intros Hsales Hrange.
  destruct (groupby_sum_spec sales) as (Hinc & Htotal & Hkeys).
  assert (Hvalue : ∀ key v, In (key, v) (groupby_sum sales) →
                            v = wrap64 (quantity_sold key sales))
    by (intros key v; by apply groupby_sum_value).
  destruct (sort_values_desc (groupby_sum sales)) as [| [k v] rest] eqn:Hsorted;
    [by apply groupby_sum_nonempty in Hsales |].
  exists k, v, rest. split; [reflexivity |].
  assert (Htop : In (k, v) (groupby_sum sales))
    by (apply sort_values_desc_In; rewrite Hsorted; by left).
  split; [| split].
  - apply Hkeys, in_map_iff. by exists (k, v).
  - by apply Hvalue.
  - intros product Hproduct.
    apply Hkeys, in_map_iff in Hproduct as ([k' v'] & Hk' & Hin'). cbn in Hk'. subst k'.
    rewrite <- (Hvalue _ _ Hin').
    pose proof (sort_values_desc_decreasing (groupby_sum sales)) as Hdec.
    rewrite Hsorted in Hdec. destruct Hdec as [Hhead _].
    apply sort_values_desc_In in Hin'. rewrite Hsorted in Hin'.
    destruct Hin' as [Heq | Hin']; [injection Heq as _ <-; lia |].
    rewrite List.Forall_forall in Hhead. by apply (Hhead (product, v')).
Qed.

End GroupFacts.

(** ** Top performer, diversity and what the dashboard shows *)

Module DashboardFacts.
Import Config DataManager Num NumFacts Analytics Reading Grouping Pages.
Import MetricsFacts BlockFacts InsightFacts GroupFacts.

Lemma best_selling_products_top (sales : list Sale.t) :
  sales ≠ [] →
  Forall (λ s, int64 (Sale.quantity s)) sales →
  ∃ top_product,
    best_selling_products sales []
    = [ {| type := "success";
           title := "🏆 Top Performer";
           message := [ Text "'"; Text top_product;
                        Text "' is your best-seller with ";
                        Int (wrap64 (quantity_sold top_product sales));
                        Text " units sold!" ] |} ]
    ∧ In top_product (map Sale.product sales)
    ∧ ∀ product, In product (map Sale.product sales) →
        (wrap64 (quantity_sold product sales)
         <= wrap64 (quantity_sold top_product sales))%Z.
Proof.
  intros Hsales Hrange.
  destruct (top_of_sorted_groups sales Hsales Hrange)
    as (top_product & top_quantity & rest & Hsorted & Hsold & -> & Hmax).
  exists top_product. split; [| split; assumption].
  unfold best_selling_products.
  apply is_empty_false in Hsales. rewrite Hsales. cbn [negb].
  rewrite Hsorted. reflexivity.
Qed.

Lemma insights_nonempty (st : Store) (username : string) :
  get_user_data (sales_files st) username "sales" ≠ [] →
  generate_insights st username ≠ [].
Proof.
  intros Hsales.
  pose proof (calculate_metrics_some st username Hsales) as Hm.
  rewrite (generate_insights_blocks _ _ _ Hm).
  unfold blocks. cbn [sales_df concat]. unfold best_selling_products.
  pose proof (groupby_sum_nonempty _ Hsales) as Hgroups.
  apply is_empty_false in Hsales. rewrite Hsales. cbn [negb].
  destruct (sort_values_desc _) as [| [top_product top_quantity] rest]; done.
Qed.

(** For a user with sales whose quantities are int64 values, the insight
    list starts with the top performer.  It names a product that was sold
    and the int64 total of its quantities, which the int64 total of no
    product exceeds; when no quantity is negative and all quantities
    together stay below 2^63, these are the true totals, so no product was
    sold in a larger total quantity. *)
Theorem top_performer_first (st : Store) (username : string) :
  let sales := get_user_data (sales_files st) username "sales" in
  sales ≠ [] →
  Forall (λ s, int64 (Sale.quantity s)) sales →
  ∃ top_product rest,
    generate_insights st username
    = {| type := "success";
         title := "🏆 Top Performer";
         message := [ Text "'"; Text top_product;
                      Text "' is your best-seller with ";
                      Int (wrap64 (quantity_sold top_product sales));
                      Text " units sold!" ] |} :: rest
    ∧ In top_product (map Sale.product sales)
    ∧ (∀ product, In product (map Sale.product sales) →
         (wrap64 (quantity_sold product sales)
          <= wrap64 (quantity_sold top_product sales))%Z)
    ∧ (Forall (λ s, (0 <= Sale.quantity s)%Z) sales →
       (sumZ (map Sale.quantity sales) < 2 ^ 63)%Z →
       wrap64 (quantity_sold top_product sales) = quantity_sold top_product sales
       ∧ ∀ product, In product (map Sale.product sales) →
           (quantity_sold product sales <= quantity_sold top_product sales)%Z).
Proof.
  intros sales Hsales Hrange.
  pose proof (calculate_metrics_some st username Hsales) as Hm.
  rewrite (generate_insights_blocks _ _ _ Hm).
  unfold blocks. cbn [sales_df concat]. fold sales.
  destruct (best_selling_products_top sales Hsales Hrange) as (top & -> & Hsold & Hmax).
  exists top. eexists. split; [reflexivity |]. split; [exact Hsold |].
  split; [exact Hmax |].
  intros Hpositive Htotal.
  assert (Hexact : ∀ product, wrap64 (quantity_sold product sales)
                              = quantity_sold product sales).
  { intros product. apply wrap64_id. unfold int64.
    pose proof (quantity_sold_bounds product sales Hpositive). lia. }
  split; [apply Hexact |].
  intros product Hproduct. rewrite <- (Hexact product), <- (Hexact top).
  by apply Hmax.
Qed.

Lemma top_performer_first_witness :
  get_user_data (sales_files Examples.small_shop) "asha" "sales" ≠ []
  ∧ Forall (λ s, int64 (Sale.quantity s))
           (get_user_data (sales_files Examples.small_shop) "asha" "sales")
  ∧ ∃ rest,
      generate_insights Examples.small_shop "asha"
      = {| type := "success";
           title := "🏆 Top Performer";
           message := [ Text "'"; Text "tea"; Text "' is your best-seller with ";
                        Int 5; Text " units sold!" ] |} :: rest.
Proof.
  assert (Hsales : get_user_data (sales_files Examples.small_shop) "asha" "sales" ≠ [])
    by nonempty_sales.
  assert (Hrange : Forall (λ s, int64 (Sale.quantity s))
                     (get_user_data (sales_files Examples.small_shop) "asha" "sales"))
    by int64_rows.
  split; [exact Hsales |]. split; [exact Hrange |].
  destruct (top_performer_first Examples.small_shop "asha" Hsales Hrange)
    as (top & rest & Hinsights & _ & _).
  exists rest.
  let insights := eval vm_compute in (generate_insights Examples.small_shop "asha") in
  assert (Hvalue : generate_insights Examples.small_shop "asha" = insights)
    by (vm_compute; reflexivity).
  rewrite Hvalue in Hinsights |- *.
  injection Hinsights as _ _ <-. reflexivity.
Defined.

(** Two sales of 2^62 units of tea wrap around to a negative total, and
    soap, with 5 units, is named the best seller. *)
Example top_performer_wraps :
  ∃ rest,
    generate_insights
      (Forms.store_of "asha"
         (Forms.record_sales [ ("tea", 2 ^ 62, 1 # 1, 1 # 2, Examples.jan 1);
                               ("tea", 2 ^ 62, 1 # 1, 1 # 2, Examples.jan 2);
                               ("soap", 5, 1 # 1, 1 # 2, Examples.jan 3) ]%Z)
         [] [] [])
      "asha"
    = {| type := "success";
         title := "🏆 Top Performer";
         message := [ Text "'"; Text "soap"; Text "' is your best-seller with ";
                      Int 5; Text " units sold!" ] |} :: rest.
Proof. eexists. vm_compute. reflexivity. Qed.

Lemma nunique_size (column : list string) :
  nunique column = size (list_to_set column : gset string).
Proof.
  unfold nunique.
  rewrite <- (size_list_to_set (C := gset string)) by apply NoDup_remove_dups.
  f_equal. apply set_eq. intros x.
  by rewrite !elem_of_list_to_set, elem_of_remove_dups.
Qed.

Lemma diversity_suggestions (st : Store) (username : string) (m : Metrics) :
  calculate_metrics st username = Some m →
  List.filter diversity_suggestion (generate_insights st username)
  = product_diversity (sales_df m) [].
Proof. intros Hm. to_block Hm. reflexivity. Qed.

(** For a user with sales, the suggestion to diversify is in the list
    exactly when fewer than 3 different products were sold, and at most
    once. *)
Theorem diversity_rule (st : Store) (username : string) :
  let sales := get_user_data (sales_files st) username "sales" in
  let insights := generate_insights st username in
  sales ≠ [] →
  (contains diversity_suggestion insights ↔ (size (products_sold sales) < 3)%nat)
  ∧ (count diversity_suggestion insights ≤ 1)%nat.
Proof.
  intros sales insights Hsales.
  pose proof (calculate_metrics_some st username Hsales) as Hm.
  unfold insights. rewrite contains_count. unfold count.
  rewrite (diversity_suggestions _ _ _ Hm). cbn [sales_df]. fold sales.
  unfold product_diversity.
  apply is_empty_false in Hsales. rewrite Hsales. cbn [negb].
  rewrite nunique_size. fold (products_sold sales).
  destruct (size (products_sold sales) <? 3)%nat eqn:Htest;
    [apply Nat.ltb_lt in Htest | apply Nat.ltb_ge in Htest]; cbn; split; lia.
Qed.

Lemma diversity_rule_witness :
  get_user_data (sales_files Examples.small_shop) "asha" "sales" ≠ []
  ∧ contains diversity_suggestion (generate_insights Examples.small_shop "asha").
Proof.
  assert (Hsales : get_user_data (sales_files Examples.small_shop) "asha" "sales" ≠ [])
    by nonempty_sales.
  split; [exact Hsales |].
  apply (diversity_rule Examples.small_shop "asha" Hsales).
  vm_compute. lia.
Defined.

Lemma boxes_of_insights (insights : list Insight) :
  Forall (λ i, In (type i) severities) insights →
  map box_content
      (flat_map
         (λ insight,
            if String.eqb (type insight) "success" then [st_success (card insight)]
            else if String.eqb (type insight) "warning" then [st_warning (card insight)]
            else if String.eqb (type insight) "error" then [st_error (card insight)]
            else if String.eqb (type insight) "info" then [st_info (card insight)]
            else [])
         insights)
  = map (λ i, (type i, card i)) insights.
Proof.
  induction 1 as [| i rest Hi _ IH]; [reflexivity |].
  cbn [flat_map]. rewrite map_app, IH. cbn [map]. f_equal.
  unfold severities in Hi. cbn in Hi.
  destruct Hi as [<- | [<- | [<- | [<- | []]]]]; reflexivity.
Qed.

(** On the dashboard of a user with sales every insight is drawn once, in
    the order of the list, in the box of its type and with its title and
    message; the list is never empty there, so the hint to add more data is
    not what is drawn. *)
Theorem every_insight_is_drawn (st : Store) (username : string) :
  let insights := generate_insights st username in
  get_user_data (sales_files st) username "sales" ≠ [] →
  insights ≠ []
  ∧ map box_content (display_ai_insights st username)
    = map (λ i, (type i, card i)) insights.
Proof.
  intros insights Hsales.
  assert (Hnonempty : insights ≠ []) by (by apply insights_nonempty).
  split; [exact Hnonempty |].
  unfold display_ai_insights. fold insights.
  apply is_empty_false in Hnonempty. rewrite Hnonempty. cbn [negb].
  apply boxes_of_insights.
  pose proof (calculate_metrics_some st username Hsales) as Hm.
  unfold insights. rewrite (generate_insights_blocks _ _ _ Hm).
  eapply Forall_impl; [apply concat_all, block_severities |].
  intros i [Hseverity _]. exact Hseverity.
Qed.

Lemma every_insight_is_drawn_witness :
  get_user_data (sales_files Examples.troubled_shop) "asha" "sales" ≠ []
  ∧ map (λ b, (box_content b).1) (display_ai_insights Examples.troubled_shop "asha")
    = ["success"; "warning"; "success"; "error"; "warning"; "info"].
Proof.
  assert (Hsales : get_user_data (sales_files Examples.troubled_shop) "asha" "sales" ≠ [])
    by nonempty_sales.
  split; [exact Hsales |].
  destruct (every_insight_is_drawn Examples.troubled_shop "asha" Hsales) as [_ Hdrawn].
  transitivity (map fst (map box_content
                           (display_ai_insights Examples.troubled_shop "asha"))).
  - by rewrite map_map.
  - rewrite Hdrawn. vm_compute. reflexivity.
Defined.

(** The analytics page shows its projection exactly when the user has at
    least 7 sales, and the projected monthly revenue it shows is then 30
    times the recent average shown next to it. *)
Theorem projection_shown (st : Store) (username : string) (m : Metrics) :
  let sales := get_user_data (sales_files st) username "sales" in
  calculate_metrics st username = Some m →
  ((7 ≤ length sales)%nat →
     ∃ p, display_predictive_insights st username m = Some p
          ∧ recent_avg p = mean (map Sale.total_amount (tail 7 sales))
          ∧ overall_avg p = mean (map Sale.total_amount sales)
          ∧ projected_monthly p = (recent_avg p * 30)%Q)
  ∧ ((length sales < 7)%nat → display_predictive_insights st username m = None).
Proof.
  intros sales Hm.
  destruct (is_empty sales) eqn:Hsales.
  { apply is_empty_true in Hsales.
    rewrite (calculate_metrics_none st username Hsales) in Hm. discriminate Hm. }
  apply is_empty_false in Hsales.
  pose proof Hm as Hm'. rewrite (calculate_metrics_some st username Hsales) in Hm'.
  assert (Hdf : sales_df m = sales) by (injection Hm' as <-; reflexivity).
  unfold display_predictive_insights, predict_monthly_revenue.
  rewrite Hm, Hdf. split; intros Hlen.
  - assert (Hshow : (7 <=? length sales)%nat = true) by (apply Nat.leb_le; lia).
    assert (Hguard : (length sales <? 7)%nat = false) by (apply Nat.ltb_ge; lia).
    rewrite Hshow, Hguard. eexists. split; [reflexivity |]. by cbn.
  - assert (Hshow : (7 <=? length sales)%nat = false) by (apply Nat.leb_gt; lia).
    by rewrite Hshow.
Qed.

Lemma projection_shown_witness :
  ∃ m p, calculate_metrics Examples.growing_shop "asha" = Some m
         ∧ display_predictive_insights Examples.growing_shop "asha" m = Some p
         ∧ (projected_monthly p == 4500 # 1)%Q.
Proof.
  destruct (calculate_metrics Examples.growing_shop "asha") as [m |] eqn:Hm;
    [| vm_compute in Hm; discriminate Hm].
  destruct (projection_shown Examples.growing_shop "asha" m Hm) as [Hlong _].
  destruct Hlong as (p & Hp & Hrecent & _ & Hprojected); [vm_compute; lia |].
  exists m, p. split; [reflexivity |]. split; [exact Hp |].
  rewrite Hprojected, Hrecent. vm_compute. reflexivity.
Defined.

End DashboardFacts.

(** ** The forms and the pages that sum what they wrote *)

Module FormFacts.
Import Config DataManager Num NumFacts Analytics Reading Pages FormRules.
Import DataManagerFacts MetricsFacts BlockFacts InsightFacts.

Ltac known_type :=
  unfold known_data_types; repeat first [apply list_elem_of_here | apply list_elem_of_further].

(** What is read after a sale was submitted. *)
Lemma sales_after_form (st : Store) (username product : string) (quantity : Z)
    (unit_price cost_per_unit : Q) (sale_date : Date) (customer_name : string) :
  let sales := get_user_data (sales_files st) username "sales" in
  let submitted := add_sale_form st username product quantity unit_price
                                 cost_per_unit sale_date customer_name in
  get_user_data (sales_files submitted.2) username "sales"
  = if filled product && Qltb 0 unit_price then
      sales ++ [Forms.sale_data sales product quantity unit_price cost_per_unit
                                sale_date customer_name]
    else sales.
Proof.
  intros sales submitted. unfold submitted, add_sale_form.
  destruct (filled product && Qltb 0 unit_price); [| reflexivity].
  cbn [snd with_sales sales_files]. apply get_after_save. known_type.
Qed.

Lemma numbered_snoc (ids : list Z) :
  numbered ids → numbered (ids ++ [Z.of_nat (length ids) + 1]%Z).
Proof.
  unfold numbered. intros Hids.
  rewrite length_app. cbn [length]. rewrite Nat.add_1_r, seq_S, map_app.
  rewrite <- Hids. cbn [map]. do 2 f_equal. lia.
Qed.

(** Sales entered through the form stay numbered 1, 2, 3, ...: if the ids of
    the stored sales are their positions, they still are after a
    submission, accepted or refused. *)
Theorem sale_ids_stay_numbered (st : Store) (username product : string)
    (quantity : Z) (unit_price cost_per_unit : Q) (sale_date : Date)
    (customer_name : string) :
  let submitted := add_sale_form st username product quantity unit_price
                                 cost_per_unit sale_date customer_name in
  numbered (map Sale.id (get_user_data (sales_files st) username "sales")) →
  numbered (map Sale.id (get_user_data (sales_files submitted.2) username "sales")).
Proof.
  intros submitted Hids. unfold submitted. rewrite sales_after_form.
  destruct (filled product && Qltb 0 unit_price); [| exact Hids].
  rewrite map_app. cbn [map Forms.sale_data Sale.id].
  rewrite <- (length_map Sale.id). by apply numbered_snoc.
Qed.

(** With a quantity of at least 1 (the minimum of the quantity input), the
    form keeps every stored sale well formed: amount = quantity × unit
    price, profit = amount − cost, and a positive amount. *)
Theorem sales_stay_well_formed (st : Store) (username product : string)
    (quantity : Z) (unit_price cost_per_unit : Q) (sale_date : Date)
    (customer_name : string) :
  let submitted := add_sale_form st username product quantity unit_price
                                 cost_per_unit sale_date customer_name in
  (1 <= quantity)%Z →
  Forall well_formed_sale (get_user_data (sales_files st) username "sales") →
  Forall well_formed_sale (get_user_data (sales_files submitted.2) username "sales").
Proof.
  intros submitted Hquantity Hsales. unfold submitted. rewrite sales_after_form.
  destruct (filled product && Qltb 0 unit_price) eqn:Haccepted; [| exact Hsales].
  apply andb_true_iff in Haccepted as [_ Hprice%Qltb_lt].
  apply Forall_app. split; [exact Hsales |].
  apply Forall_cons_2; [| apply Forall_nil_2].
  unfold well_formed_sale, Forms.sale_data. cbn.
  split; [reflexivity |]. split; [reflexivity |].
  apply Qmult_lt_0_compat; [| exact Hprice].
  change 0%Q with (inject_Z 0). rewrite <- Zlt_Qlt. lia.
Qed.





Lemma inventory_after_form (st : Store) (username item_name : string)
    (quantity : Z) (unit_price : Q) (category : string) (reorder_level : Z)
    (supplier notes : string) (today : Date) :
  let inventory := get_user_data (inventory_files st) username "inventory" in
  let submitted := add_inventory_form st username item_name quantity unit_price
                                      category reorder_level supplier notes today in
  get_user_data (inventory_files submitted.2) username "inventory"
  = if filled item_name && (0 <=? quantity)%Z then
      inventory ++ [Forms.inventory_data inventory item_name quantity unit_price
                                         category reorder_level supplier notes today]
    else inventory.
Proof.
  intros inventory submitted. unfold submitted, add_inventory_form.
  destruct (filled item_name && (0 <=? quantity)%Z); [| reflexivity].
  cbn [snd with_inventory inventory_files]. apply get_after_save. known_type.
Qed.

(** Once a user with sales adds an item holding fewer than 10 units, the
    insight list has the low-stock warning, whatever reorder level was
    entered for the item. *)
Theorem low_item_raises_warning (st : Store) (username item_name : string)
    (quantity : Z) (unit_price : Q) (category : string) (reorder_level : Z)
    (supplier notes : string) (today : Date) :
  let submitted := add_inventory_form st username item_name quantity unit_price
                                      category reorder_level supplier notes today in
  get_user_data (sales_files st) username "sales" ≠ [] →
  item_name ≠ "" → (0 <= quantity < 10)%Z →
  submitted.1 = true
  ∧ contains low_stock_warning (generate_insights submitted.2 username).
Proof.
  intros submitted Hsales Hname Hquantity.
  assert (Haccepted : filled item_name && (0 <=? quantity)%Z = true).
  { apply andb_true_iff. split; [| apply Z.leb_le; lia].
    unfold filled. by rewrite negb_true_iff, String.eqb_neq. }
  pose proof (inventory_after_form st username item_name quantity unit_price
                category reorder_level supplier notes today) as Hafter.
  cbv zeta in Hafter. fold submitted in Hafter. rewrite Haccepted in Hafter.
  assert (Hsame : sales_files submitted.2 = sales_files st).
  { unfold submitted, add_inventory_form. by rewrite Haccepted. }
  split; [unfold submitted, add_inventory_form; by rewrite Haccepted |].
  assert (Hsales' : get_user_data (sales_files submitted.2) username "sales" ≠ [])
    by (by rewrite Hsame).
  pose proof (calculate_metrics_some submitted.2 username Hsales') as Hm.
  rewrite contains_count. unfold count.
  rewrite (low_stock_warnings _ _ _ Hm), inventory_insights_warning, Hafter.
  unfold below_threshold. rewrite List.filter_app.
  cbn [List.filter Forms.inventory_data Item.quantity].
  assert (Hlow : (quantity <? LOW_STOCK_THRESHOLD)%Z = true)
    by (apply Z.ltb_lt; unfold LOW_STOCK_THRESHOLD; lia).
  rewrite Hlow.
  match goal with
  | |- context [is_empty (?low ++ [?item])] =>
      assert (Hnonempty : is_empty (low ++ [item]) = false) by (by destruct low);
      rewrite Hnonempty
  end.
  cbn [negb length]. lia.
Qed.





Lemma sale_ids_stay_numbered_witness :
  numbered (map Sale.id (get_user_data (sales_files Examples.small_shop) "asha" "sales"))
  ∧ map Sale.id
      (get_user_data
         (sales_files
            (add_sale_form Examples.small_shop "asha" "salt" 2 (10 # 1) (6 # 1)
                           (Examples.jan 4) "").2)
         "asha" "sales")
    = [1; 2; 3; 4]%Z.
Proof.
  assert (Hids : numbered (map Sale.id (get_user_data (sales_files Examples.small_shop)
                                                      "asha" "sales")))
    by reflexivity.
  split; [exact Hids |].
  pose proof (sale_ids_stay_numbered Examples.small_shop "asha" "salt" 2 (10 # 1)
                (6 # 1) (Examples.jan 4) "" Hids) as Hafter.
  unfold numbered in Hafter. rewrite Hafter. reflexivity.
Defined.

Lemma sales_stay_well_formed_witness :
  (1 <= 2)%Z
  ∧ Forall well_formed_sale
           (get_user_data (sales_files Examples.small_shop) "asha" "sales")
  ∧ Forall well_formed_sale
           (get_user_data
              (sales_files
                 (add_sale_form Examples.small_shop "asha" "salt" 2 (10 # 1) (6 # 1)
                                (Examples.jan 4) "").2)
              "asha" "sales").
Proof.
  assert (Hquantity : (1 <= 2)%Z) by lia.
  assert (Hsales : Forall well_formed_sale
                     (get_user_data (sales_files Examples.small_shop) "asha" "sales"))
    by (vm_compute; repeat constructor).
  split; [exact Hquantity |]. split; [exact Hsales |].
  exact (sales_stay_well_formed Examples.small_shop "asha" "salt" 2 (10 # 1) (6 # 1)
           (Examples.jan 4) "" Hquantity Hsales).
Defined.


Lemma low_item_raises_warning_witness :
  get_user_data (sales_files Examples.high_reorder_shop) "asha" "sales" ≠ []
  ∧ "salt" ≠ ""
  ∧ (0 <= 4 < 10)%Z
  ∧ ¬ contains low_stock_warning (generate_insights Examples.high_reorder_shop "asha")
  ∧ contains low_stock_warning
      (generate_insights
         (add_inventory_form Examples.high_reorder_shop "asha" "salt" 4 (3 # 1)
                             "Food" 2 "" "" (Examples.jan 9)).2
         "asha").
Proof.
  assert (Hsales : get_user_data (sales_files Examples.high_reorder_shop) "asha" "sales" ≠ [])
    by nonempty_sales.
  assert (Hname : "salt" ≠ "") by discriminate.
  assert (Hquantity : (0 <= 4 < 10)%Z) by lia.
  split; [exact Hsales |]. split; [exact Hname |]. split; [exact Hquantity |].
  split; [vm_compute; discriminate |].
  apply (low_item_raises_warning Examples.high_reorder_shop "asha" "salt" 4 (3 # 1)
           "Food" 2 "" "" (Examples.jan 9) Hsales Hname Hquantity).
Defined.



End FormFacts.

(** ** Product performance *)

Module PerformanceFacts.
Import DataManager Num NumFacts Analytics Grouping Performance.
Import MetricsFacts GroupFacts FormFacts.

Lemma agg_add_keys (key k : string) (row : Totals) (groups : list (string * Totals)) :
  In key (map fst (agg_add k row groups)) ↔ key = k ∨ In key (map fst groups).
Proof.
  induction groups as [| [k' totals] rest IH]; cbn [agg_add].
  - cbn. intuition congruence.
  - destruct (String.compare k k') eqn:Hcmp.
    + apply string_compare_eq in Hcmp. subst k'. cbn. intuition congruence.
    + cbn. intuition congruence.
    + cbn [map fst In]. rewrite IH. intuition congruence.
Qed.

Lemma agg_add_increasing (k : string) (row : Totals) (groups : list (string * Totals)) :
  names_increasing (map fst groups) →
  names_increasing (map fst (agg_add k row groups)).
Proof.
  induction groups as [| [k' totals] rest IH]; cbn [agg_add].
  - cbn. auto.
  - cbn [map fst names_increasing]. intros [Hhead Hrest].
    destruct (String.compare k k') eqn:Hcmp; cbn [map fst names_increasing].
    + split; assumption.
    + split; [| split; assumption].
      constructor; [exact Hcmp |].
      eapply Forall_impl; [exact Hhead |].
      intros name Hname. cbn in *. by eapply string_compare_lt_trans.
    + split; [| by apply IH].
      apply List.Forall_forall. intros name [-> | Hin]%agg_add_keys.
      * by apply string_compare_gt_lt.
      * rewrite List.Forall_forall in Hhead. by apply Hhead.
Qed.

Lemma names_increasing_NoDup (names : list string) :
  names_increasing names → NoDup names.
Proof.
  induction names as [| k rest IH]; [constructor |].
  intros [Hhead Hrest]. constructor; [| by apply IH].
  intros Hin%list_elem_of_In. rewrite List.Forall_forall in Hhead.
  specialize (Hhead k Hin). by rewrite string_compare_refl in Hhead.
Qed.

(** The quantity column of the aggregate is the grouped quantity sum of the
    top performer. *)
Lemma agg_add_quantities (k : string) (row : Totals) (groups : list (string * Totals)) :
  map (λ e, (e.1, quantity e.2)) (agg_add k row groups)
  = group_add k (quantity row) (map (λ e, (e.1, quantity e.2)) groups).
Proof.
  induction groups as [| [k' totals] rest IH]; cbn [agg_add group_add map fst snd].
  - reflexivity.
  - destruct (String.compare k k'); cbn [map fst snd add_totals quantity].
    + reflexivity.
    + reflexivity.
    + by rewrite IH.
Qed.

Lemma groupby_agg_quantities (sales : list Sale.t) :
  map (λ e, (e.1, quantity e.2)) (groupby_agg sales) = groupby_sum sales.
Proof.
  unfold groupby_agg, groupby_sum.
  induction sales as [| s sales IH] using rev_ind; [reflexivity |].
  rewrite !fold_left_app. cbn [fold_left].
  by rewrite agg_add_quantities, IH.
Qed.

Lemma groupby_agg_spec (sales : list Sale.t) :
  names_increasing (map fst (groupby_agg sales))
  ∧ (∀ key, In key (map fst (groupby_agg sales)) ↔ In key (map Sale.product sales)).
Proof.
  unfold groupby_agg.
  induction sales as [| s sales IH] using rev_ind.
  - cbn. split; [exact I | tauto].
  - rewrite fold_left_app. cbn [fold_left].
    destruct IH as (Hinc & Hkeys).
    split; [by apply agg_add_increasing |].
    intros key. rewrite agg_add_keys, Hkeys, map_app, in_app_iff. cbn.
    intuition congruence.
Qed.

(** Sorting by amount keeps the rows and orders them. *)
Lemma insert_by_amount_In (r row : ProductStats) (sorted : list ProductStats) :
  In r (insert_by_amount row sorted) ↔ r = row ∨ In r sorted.
Proof.
  induction sorted as [| x rest IH]; cbn [insert_by_amount].
  - cbn. intuition.
  - destruct (Qle_bool _ _); cbn [In]; [intuition |].
    rewrite IH. intuition.
Qed.

Lemma sort_by_amount_In (r : ProductStats) (rows : list ProductStats) :
  In r (sort_by_amount rows) ↔ In r rows.
Proof.
  unfold sort_by_amount.
  induction rows as [| x rest IH]; [reflexivity |].
  cbn [foldr]. rewrite insert_by_amount_In, IH. cbn. intuition.
Qed.

Lemma insert_by_amount_length (row : ProductStats) (sorted : list ProductStats) :
  length (insert_by_amount row sorted) = S (length sorted).
Proof.
  induction sorted as [| x rest IH]; [reflexivity |].
  cbn [insert_by_amount]. destruct (Qle_bool _ _); cbn [length]; [reflexivity |].
  by rewrite IH.
Qed.

Lemma sort_by_amount_length (rows : list ProductStats) :
  length (sort_by_amount rows) = length rows.
Proof.
  unfold sort_by_amount.
  induction rows as [| x rest IH]; [reflexivity |].
  cbn [foldr length]. by rewrite insert_by_amount_length, IH.
Qed.

Lemma insert_by_amount_decreasing (row : ProductStats) (sorted : list ProductStats) :
  amounts_decreasing sorted → amounts_decreasing (insert_by_amount row sorted).
Proof.
  induction sorted as [| x rest IH]; cbn [insert_by_amount].
  - cbn. auto.
  - intros [Hhead Hrest].
    destruct (Qle_bool (total_amount (sold x)) (total_amount (sold row))) eqn:Hcmp.
    + apply Qle_bool_iff in Hcmp. split; [| split; assumption].
      constructor; [exact Hcmp |].
      eapply Forall_impl; [exact Hhead |]. intros r Hr. cbn in *. lra.
    + assert (Hlt : (total_amount (sold row) < total_amount (sold x))%Q).
      { apply Qnot_le_lt. intros Hle%Qle_bool_iff. congruence. }
      split; [| by apply IH].
      apply List.Forall_forall. intros r [-> | Hin]%insert_by_amount_In; [lra |].
      rewrite List.Forall_forall in Hhead. by apply Hhead.
Qed.

Lemma sort_by_amount_decreasing (rows : list ProductStats) :
  amounts_decreasing (sort_by_amount rows).
Proof.
  unfold sort_by_amount.
  induction rows as [| x rest IH]; [exact I |].
  cbn [foldr]. by apply insert_by_amount_decreasing.
Qed.

Lemma insert_by_amount_sumZ (column : ProductStats → Z) (row : ProductStats)
    (sorted : list ProductStats) :
  sumZ (map column (insert_by_amount row sorted))
  = (column row + sumZ (map column sorted))%Z.
Proof.
  induction sorted as [| x rest IH]; cbn [insert_by_amount].
  - cbn [map]. by rewrite sumZ_cons.
  - destruct (Qle_bool _ _); cbn [map]; rewrite !sumZ_cons; [reflexivity |].
    rewrite IH. lia.
Qed.

Lemma sort_by_amount_sumZ (column : ProductStats → Z) (rows : list ProductStats) :
  sumZ (map column (sort_by_amount rows)) = sumZ (map column rows).
Proof.
  unfold sort_by_amount.
  induction rows as [| x rest IH]; [reflexivity |].
  cbn [foldr map]. by rewrite insert_by_amount_sumZ, sumZ_cons, IH.
Qed.

Lemma performance_some (st : Store) (username : string) :
  let sales := get_user_data (sales_files st) username "sales" in
  sales ≠ [] →
  get_product_performance st username
  = Some (sort_by_amount (map with_margin (groupby_agg sales))).
Proof.
  intros sales Hsales. unfold get_product_performance.
  rewrite (calculate_metrics_some st username Hsales). cbn [sales_df]. fold sales.
  apply is_empty_false in Hsales. by rewrite Hsales.
Qed.

(** The frame has one row per product sold, the rows by decreasing total
    amount. *)
Theorem performance_rows (st : Store) (username : string) :
  let sales := get_user_data (sales_files st) username "sales" in
  sales ≠ [] →
  ∃ rows, get_product_performance st username = Some rows
          ∧ (∀ name, In name (map product rows) ↔ In name (map Sale.product sales))
          ∧ length rows = size (products_sold sales)
          ∧ amounts_decreasing rows.
Proof.
  intros sales Hsales. eexists. split; [by apply performance_some |]. fold sales.
  destruct (groupby_agg_spec sales) as (Hinc & Hkeys).
  assert (Hnames : ∀ name,
            In name (map product (sort_by_amount (map with_margin (groupby_agg sales))))
            ↔ In name (map fst (groupby_agg sales))).
  { intros name. rewrite !in_map_iff. split.
    - intros (r & <- & Hr). rewrite sort_by_amount_In in Hr.
      apply in_map_iff in Hr as (e & <- & He). by exists e.
    - intros (e & <- & He). exists (with_margin e). split; [reflexivity |].
      rewrite sort_by_amount_In. apply in_map_iff. by exists e. }
  split; [| split].
  - intros name. by rewrite Hnames, Hkeys.
  - rewrite sort_by_amount_length, length_map, <- (length_map fst).
    rewrite <- (size_list_to_set (C := gset string))
      by (by apply names_increasing_NoDup).
    f_equal. apply set_eq. intros name. unfold products_sold.
    by rewrite !elem_of_list_to_set, !list_elem_of_In.
  - apply sort_by_amount_decreasing.
Qed.

Lemma performance_rows_witness :
  get_user_data (sales_files Examples.small_shop) "asha" "sales" ≠ []
  ∧ ∃ rows, get_product_performance Examples.small_shop "asha" = Some rows
            ∧ map product rows = ["tea"; "soap"].
Proof.
  assert (Hsales : get_user_data (sales_files Examples.small_shop) "asha" "sales" ≠ [])
    by (vm_compute; discriminate).
  split; [exact Hsales |].
  destruct (performance_rows Examples.small_shop "asha" Hsales) as (rows & Hrows & _).
  exists rows. split; [exact Hrows |].
  vm_compute in Hrows. injection Hrows as <-. reflexivity.
Defined.

(** The quantity column of the frame, for sales whose quantities are int64
    values: each row holds the int64 total of its product's quantities.
    When no quantity is negative and all quantities together stay below
    2^63, each row holds the true total of its product, and the rows add up
    to the quantity of all sales. *)
Theorem performance_quantities (st : Store) (username : string) :
  let sales := get_user_data (sales_files st) username "sales" in
  sales ≠ [] →
  Forall (λ s, int64 (Sale.quantity s)) sales →
  ∃ rows, get_product_performance st username = Some rows
          ∧ (∀ r, In r rows →
               quantity (sold r) = wrap64 (quantity_sold (product r) sales))
          ∧ (Forall (λ s, (0 <= Sale.quantity s)%Z) sales →
             (sumZ (map Sale.quantity sales) < 2 ^ 63)%Z →
             (∀ r, In r rows → quantity (sold r) = quantity_sold (product r) sales)
             ∧ sumZ (map (λ r, quantity (sold r)) rows)
               = sumZ (map Sale.quantity sales)).
Proof.
  intros sales Hsales Hrange. eexists. split; [by apply performance_some |].
  fold sales.
  assert (Hrows : ∀ r, In r (sort_by_amount (map with_margin (groupby_agg sales))) →
                       quantity (sold r) = wrap64 (quantity_sold (product r) sales)).
  { intros r Hr. rewrite sort_by_amount_In in Hr.
    apply in_map_iff in Hr as ([k totals] & <- & He). cbn [with_margin product sold fst snd].
    apply groupby_sum_value; [exact Hrange |].
    rewrite <- groupby_agg_quantities. apply in_map_iff. by exists (k, totals). }
  split; [exact Hrows |].
  intros Hpositive Htotal. split.
  - intros r Hr. rewrite (Hrows r Hr). apply wrap64_id. unfold int64.
    pose proof (quantity_sold_bounds (product r) sales Hpositive). lia.
  - rewrite sort_by_amount_sumZ, map_map. cbn [with_margin sold].
    destruct (groupby_sum_total sales Hpositive Htotal) as [_ <-].
    rewrite <- groupby_agg_quantities, map_map. reflexivity.
Qed.

Lemma performance_quantities_witness :
  get_user_data (sales_files Examples.small_shop) "asha" "sales" ≠ []
  ∧ Forall (λ s, int64 (Sale.quantity s))
           (get_user_data (sales_files Examples.small_shop) "asha" "sales")
  ∧ ∃ rows, get_product_performance Examples.small_shop "asha" = Some rows
            ∧ map (λ r, (product r, quantity (sold r))) rows = [("tea", 5); ("soap", 1)]%Z.
Proof.
  assert (Hsales : get_user_data (sales_files Examples.small_shop) "asha" "sales" ≠ [])
    by (vm_compute; discriminate).
  assert (Hrange : Forall (λ s, int64 (Sale.quantity s))
                     (get_user_data (sales_files Examples.small_shop) "asha" "sales"))
    by int64_rows.
  split; [exact Hsales |]. split; [exact Hrange |].
  destruct (performance_quantities Examples.small_shop "asha" Hsales Hrange)
    as (rows & Hrows & _).
  exists rows. split; [exact Hrows |].
  vm_compute in Hrows. injection Hrows as <-. reflexivity.
Defined.

End PerformanceFacts.

(** ** Orders *)

Module OrderFacts.
Import Config DataManager Num NumFacts Analytics Reading Pages.
Import DataManagerFacts MetricsFacts FormFacts.




End OrderFacts.

(** ** The rules that turn on rounding

    The profit, the margin and the trend and debt tests, as the binary64
    arithmetic of the code decides them, for every way of adding up a
    column. *)

Module Binary64Facts.
Import PrimFloat.
Import Config DataManager Num NumFacts Analytics Reading MetricsFacts BlockFacts.
Import Binary64.

#[local] Set Warnings "-inexact-float".

Section Summation.

Variable series_sum : list float → float.
Variable series_mean : list float → float.
Variable builtin_sum : list float → float.

Local Abbreviation calculate_metrics := (Binary64.calculate_metrics series_sum builtin_sum).
Local Abbreviation sales_trends := (Binary64.sales_trends series_mean).
Local Abbreviation blocks := (Binary64.blocks series_mean).
Local Abbreviation generate_insights :=
  (Binary64.generate_insights series_sum series_mean builtin_sum).

(** The dictionary [calculate_metrics] builds when the user has sales. *)
Lemma metrics_of_sales (st : Store) (username : string) :
  let sales := get_user_data (sales_files st) username "sales" in
  let revenue := series_sum (map Sale.total_amount sales) in
  let profit := sub revenue (series_sum (map Sale.cost sales)) in
  sales ≠ [] →
  calculate_metrics st username =
  Some {| total_revenue := revenue;
          total_profit := profit;
          profit_margin := if ltb 0 revenue then mul (div profit revenue) 100 else 0%float;
          inventory_value :=
            builtin_sum
              (map (λ item, mul (of_Z (Item.quantity item)) (Item.unit_price item))
                   (get_user_data (inventory_files st) username "inventory"));
          pending_orders :=
            builtin_sum
              (map Order.amount
                   (List.filter (λ order, String.eqb (Order.status order) "Pending")
                      (get_user_data (orders_files st) username "orders")));
          total_debts :=
            builtin_sum
              (map Debt.amount
                   (List.filter (λ debt, String.eqb (Debt.status debt) "Pending")
                      (get_user_data (debts_files st) username "debts")));
          sales_df := sales;
          total_sales_count := length sales |}.
Proof.
  intros sales revenue profit Hsales. unfold Binary64.calculate_metrics.
  apply is_empty_false in Hsales. fold sales. by rewrite Hsales.
Qed.

Lemma insights_of_no_sales (st : Store) (username : string) :
  get_user_data (sales_files st) username "sales" = [] →
  generate_insights st username = [].
Proof.
  intros Hsales. unfold Binary64.generate_insights, Binary64.calculate_metrics.
  by rewrite Hsales.
Qed.

Ltac unfold_blocks :=
  unfold Binary64.best_selling_products, Binary64.profit_margin_analysis,
    Binary64.sales_trends, Binary64.debt_management, Binary64.inventory_insights,
    Binary64.product_diversity.

Ltac run_block := unfold_blocks; repeat case_match; try reflexivity.

(** Each block only appends. *)
Lemma best_selling_products_appends (sales_df : list Sale.t) (insights : list Insight) :
  best_selling_products sales_df insights
  = insights ++ best_selling_products sales_df [].
Proof. run_block; by rewrite app_nil_r. Qed.

Lemma profit_margin_analysis_appends (metrics : Metrics) (insights : list Insight) :
  profit_margin_analysis metrics insights
  = insights ++ profit_margin_analysis metrics [].
Proof. run_block; by rewrite app_nil_r. Qed.

Lemma sales_trends_appends (sales_df : list Sale.t) (insights : list Insight) :
  sales_trends sales_df insights = insights ++ sales_trends sales_df [].
Proof. run_block; by rewrite app_nil_r. Qed.

Lemma debt_management_appends (metrics : Metrics) (insights : list Insight) :
  debt_management metrics insights = insights ++ debt_management metrics [].
Proof. run_block; by rewrite app_nil_r. Qed.

Lemma inventory_insights_appends (inventory : list Item.t) (insights : list Insight) :
  inventory_insights inventory insights
  = insights ++ inventory_insights inventory [].
Proof. run_block; by rewrite app_nil_r. Qed.

Lemma product_diversity_appends (sales_df : list Sale.t) (insights : list Insight) :
  product_diversity sales_df insights = insights ++ product_diversity sales_df [].
Proof. run_block; by rewrite app_nil_r. Qed.

Lemma insights_in_blocks (st : Store) (username : string) (m : Metrics) :
  calculate_metrics st username = Some m →
  generate_insights st username = concat (blocks st username m).
Proof.
  intros Hm. unfold Binary64.generate_insights. rewrite Hm. cbv zeta.
  rewrite product_diversity_appends, inventory_insights_appends, debt_management_appends,
    sales_trends_appends, profit_margin_analysis_appends.
  unfold Binary64.blocks. cbn [concat]. rewrite app_nil_r, <- !app_assoc. reflexivity.
Qed.

Lemma filter_in_blocks (kind : Insight → bool) (st : Store) (username : string)
    (m : Metrics) :
  calculate_metrics st username = Some m →
  List.filter kind (generate_insights st username)
  = concat (map (List.filter kind) (blocks st username m)).
Proof.
  intros Hm. rewrite (insights_in_blocks _ _ _ Hm).
  induction (blocks st username m) as [| block rest IH]; [reflexivity |].
  cbn [concat map]. rewrite List.filter_app, IH. reflexivity.
Qed.

(** Reduce the insights of one kind in the whole list to the block that
    emits them: every other block contributes none. *)
Ltac to_block Hm :=
  rewrite (filter_in_blocks _ _ _ _ Hm); unfold Binary64.blocks; cbn [map concat];
  repeat match goal with
    | |- context [List.filter ?kind (?block ?arg [])] =>
        let H := fresh in
        first [ assert (H : List.filter kind (block arg []) = []) by run_block
              | assert (H : List.filter kind (block arg []) = block arg []) by run_block ];
        rewrite H; clear H
    end;
  cbn [app]; rewrite ?app_nil_r.

Lemma debt_alerts_of (st : Store) (username : string) (m : Metrics) :
  calculate_metrics st username = Some m →
  List.filter debt_alert (generate_insights st username) = debt_management m [].
Proof. intros Hm. to_block Hm. reflexivity. Qed.

Lemma growth_messages_of (st : Store) (username : string) (m : Metrics) :
  calculate_metrics st username = Some m →
  List.filter growth_message (generate_insights st username)
  = List.filter growth_message (sales_trends (sales_df m) []).
Proof. intros Hm. to_block Hm. reflexivity. Qed.

Lemma decline_warnings_of (st : Store) (username : string) (m : Metrics) :
  calculate_metrics st username = Some m →
  List.filter decline_warning (generate_insights st username)
  = List.filter decline_warning (sales_trends (sales_df m) []).
Proof. intros Hm. to_block Hm. reflexivity. Qed.

(** What the trend block emits of each kind. *)
Lemma growth_of_trend (sales : list Sale.t) :
  let recent := series_mean (map Sale.total_amount (tail 7 sales)) in
  let older := series_mean (map Sale.total_amount (head 7 sales)) in
  count growth_message (sales_trends sales [])
  = if (7 <? length sales)%nat && ltb (mul older 1.2) recent then 1%nat else 0%nat.
Proof.
  intros recent older. unfold Binary64.sales_trends. fold recent older.
  change SALES_GROWTH_THRESHOLD with 1.2%float.
  destruct (7 <? length sales)%nat; [| reflexivity]. cbn [andb].
  destruct (ltb (mul older 1.2) recent); [reflexivity |].
  destruct (ltb recent _); reflexivity.
Qed.

Lemma decline_of_trend (sales : list Sale.t) :
  let recent := series_mean (map Sale.total_amount (tail 7 sales)) in
  let older := series_mean (map Sale.total_amount (head 7 sales)) in
  count decline_warning (sales_trends sales [])
  = if (7 <? length sales)%nat && negb (ltb (mul older 1.2) recent)
       && ltb recent (mul older 0.8)
    then 1%nat else 0%nat.
Proof.
  intros recent older. unfold Binary64.sales_trends. fold recent older.
  change SALES_GROWTH_THRESHOLD with 1.2%float.
  change SALES_DECLINE_THRESHOLD with 0.8%float.
  destruct (7 <? length sales)%nat; [| reflexivity]. cbn [andb].
  destruct (ltb (mul older 1.2) recent); [reflexivity |]. cbn [negb andb].
  destruct (ltb recent (mul older 0.8)); reflexivity.
Qed.

(** C1, as the code decides it: with at least 8 sales, the growth message
    is in the list exactly when the binary64 product of the mean of the
    first 7 records and 1.2 is less than the mean of the last 7 records;
    the decline warning exactly when that test fails and the recent mean is
    less than the binary64 product of the older mean and 0.8.  With fewer
    than 8 sales neither is in the list, and the two are never both
    there. *)
Theorem trend_comparisons (st : Store) (username : string) :
  let sales := get_user_data (sales_files st) username "sales" in
  let recent := series_mean (map Sale.total_amount (tail 7 sales)) in
  let older := series_mean (map Sale.total_amount (head 7 sales)) in
  let insights := generate_insights st username in
  ((8 ≤ length sales)%nat →
     (contains growth_message insights ↔ ltb (mul older 1.2) recent = true)
     ∧ (contains decline_warning insights
        ↔ ltb (mul older 1.2) recent = false ∧ ltb recent (mul older 0.8) = true))
  ∧ ((length sales < 8)%nat →
     ¬ contains growth_message insights ∧ ¬ contains decline_warning insights)
  ∧ ¬ (contains growth_message insights ∧ contains decline_warning insights).
Proof.
  intros sales recent older insights.
  destruct (is_empty sales) eqn:Hsales.
  - apply is_empty_true in Hsales.
    pose proof (insights_of_no_sales st username Hsales) as Hnone.
    unfold insights. rewrite Hnone, Hsales. unfold contains. cbn.
    split; [lia |]. split; [intros _; split; discriminate |].
    intros [Hgrowth _]. discriminate Hgrowth.
  - apply is_empty_false in Hsales.
    pose proof (metrics_of_sales st username Hsales) as Hm.
    unfold insights. rewrite !contains_count. unfold count.
    rewrite !(growth_messages_of _ _ _ Hm), !(decline_warnings_of _ _ _ Hm).
    cbn [sales_df]. fold sales.
    fold (count growth_message (sales_trends sales [])).
    fold (count decline_warning (sales_trends sales [])).
    rewrite growth_of_trend, decline_of_trend. fold recent older.
    destruct (7 <? length sales)%nat eqn:Hlen;
      [apply Nat.ltb_lt in Hlen | apply Nat.ltb_ge in Hlen];
      destruct (ltb (mul older 1.2) recent);
      destruct (ltb recent (mul older 0.8)); cbn [andb negb];
      (split; [intros Hlong; try lia; split; split; intros; try done; try lia;
               by destruct_and?
              | split; [intros Hshort; lia || (split; lia) | lia]]).
Qed.

(** C7, as the code decides it: for a non-empty sales list, the insight
    list has exactly one error-severity debt alert when the binary64
    product of the total revenue and 0.3 is less than the sum of the
    pending debts, and none otherwise. *)
Theorem debt_alert_comparison (st : Store) (username : string) :
  let sales := get_user_data (sales_files st) username "sales" in
  let debts := get_user_data (debts_files st) username "debts" in
  let revenue := series_sum (map Sale.total_amount sales) in
  let pending :=
    builtin_sum
      (map Debt.amount
           (List.filter (λ debt, String.eqb (Debt.status debt) "Pending") debts)) in
  let insights := generate_insights st username in
  sales ≠ [] →
  (count debt_alert insights = 1%nat ↔ ltb (mul revenue 0.3) pending = true)
  ∧ (count debt_alert insights = 0%nat ↔ ltb (mul revenue 0.3) pending = false).
Proof.
  intros sales debts revenue pending insights Hsales.
  pose proof (metrics_of_sales st username Hsales) as Hm.
  unfold insights, count. rewrite (debt_alerts_of _ _ _ Hm).
  unfold Binary64.debt_management. cbn [total_revenue total_debts].
  fold sales debts revenue pending. change DEBT_WARNING_RATIO with 0.3%float.
  destruct (ltb (mul revenue 0.3) pending); cbn; split; split; intros; done.
Qed.


(** C3, as the code has it: for a non-empty sales list the returned
    dictionary has these eight keys and no [total_cost] among them; the sum
    of the [cost] column is computed, and what is returned of it is the
    profit, the binary64 difference of the revenue and that sum. *)
Theorem total_cost_is_not_returned (st : Store) (username : string) :
  let sales := get_user_data (sales_files st) username "sales" in
  sales ≠ [] →
  ∃ m, calculate_metrics st username = Some m
       ∧ map fst (metrics_items m) =
           [ "total_revenue"; "total_profit"; "profit_margin"; "inventory_value";
             "pending_orders"; "total_debts"; "sales_df"; "total_sales_count" ]
       ∧ dict_get "total_cost" (metrics_items m) = None
       ∧ total_profit m = sub (total_revenue m) (series_sum (map Sale.cost sales)).
Proof.
  intros sales Hsales. eexists. split; [by apply metrics_of_sales |].
  cbn. by repeat split.
Qed.

End Summation.

Local Abbreviation metrics := (calculate_metrics sequential_sum sequential_sum).
Local Abbreviation insights_of :=
  (generate_insights sequential_sum sequential_mean sequential_sum).

Ltac nonempty_sales := vm_compute; discriminate.

Lemma trend_comparisons_witness :
  (8 ≤ length (get_user_data (sales_files steady_growth_shop) "asha" "sales"))%nat
  ∧ contains growth_message (insights_of steady_growth_shop "asha")
  ∧ ¬ contains decline_warning (insights_of steady_growth_shop "asha").
Proof.
  assert (Hlen : (8 ≤ length (get_user_data (sales_files steady_growth_shop)
                                            "asha" "sales"))%nat)
    by (vm_compute; lia).
  split; [exact Hlen |].
  destruct (trend_comparisons sequential_sum sequential_mean sequential_sum
              steady_growth_shop "asha") as ([Hgrowth Hdecline] & _ & Hboth);
    [exact Hlen |].
  assert (Hcontains : contains growth_message (insights_of steady_growth_shop "asha"))
    by (apply Hgrowth; vm_compute; reflexivity).
  split; [exact Hcontains |].
  intros Hwarning. apply Hboth. split; [exact Hcontains | exact Hwarning].
Defined.

(** C1 as stated fails at the boundary: seven sales of 5.00 and one of
    12.00 have means 5 and 6, the recent mean is 1.2 times the older one,
    and no growth message is emitted. *)
Lemma growth_at_threshold_counterexample :
  let sales := get_user_data (sales_files spike_shop) "asha" "sales" in
  (8 ≤ length sales)%nat
  ∧ sequential_mean (map Sale.total_amount (head 7 sales)) = 5%float
  ∧ sequential_mean (map Sale.total_amount (tail 7 sales)) = 6%float
  ∧ ((12 # 10) * exact 5 <= exact 6)%Q
  ∧ ¬ contains growth_message (insights_of spike_shop "asha").
Proof.
  split; [vm_compute; lia |]. split; [vm_compute; reflexivity |].
  split; [vm_compute; reflexivity |]. split; [vm_compute; discriminate |].
  vm_compute. discriminate.
Qed.

(** At the boundary the outcome is the rounding's.  The means 15/7 and
    18/7 are in the ratio 1.2 and the growth message is emitted; the means
    50/7 and 40/7 are in the ratio 0.8 and the decline warning is
    emitted. *)
Example trend_at_the_exact_ratio :
  contains growth_message (insights_of ratio_shop "asha")
  ∧ contains decline_warning (insights_of dip_shop "asha").
Proof. split; vm_compute; reflexivity. Qed.

Lemma debt_alert_comparison_witness :
  get_user_data (sales_files three_shop) "asha" "sales" ≠ []
  ∧ count debt_alert (insights_of three_shop "asha") = 1%nat.
Proof.
  assert (Hsales : get_user_data (sales_files three_shop) "asha" "sales" ≠ [])
    by nonempty_sales.
  split; [exact Hsales |].
  apply (debt_alert_comparison sequential_sum sequential_mean sequential_sum
           three_shop "asha" Hsales).
  vm_compute. reflexivity.
Defined.

(** C7 as stated fails at the boundary, whichever way the amounts are
    read.  With a revenue of 7.00 and a pending debt of 2.10, the number the
    debt is stored as exceeds three tenths of the revenue, and there is no
    alert.  With a revenue of 3.00 and a pending debt of 0.90, the debt that
    was entered is three tenths of the revenue, not more, and there is an
    alert. *)
Lemma debt_at_threshold_counterexample :
  (∃ m, metrics seven_shop "asha" = Some m
        ∧ total_revenue m = 7%float
        ∧ total_debts m = 2.1%float
        ∧ ((3 # 10) * exact (total_revenue m) < exact (total_debts m))%Q
        ∧ count debt_alert (insights_of seven_shop "asha") = 0%nat)
  ∧ (∃ m, metrics three_shop "asha" = Some m
          ∧ total_revenue m = 3%float
          ∧ total_debts m = 0.9%float
          ∧ (9 # 10 <= (3 # 10) * 3)%Q
          ∧ count debt_alert (insights_of three_shop "asha") = 1%nat).
Proof.
  split; eexists; (split; [vm_compute; reflexivity |]); cbn [total_revenue total_debts].
  - split; [reflexivity |]. split; [reflexivity |].
    split; vm_compute; reflexivity.
  - split; [reflexivity |]. split; [reflexivity |].
    split; [vm_compute; discriminate | vm_compute; reflexivity].
Qed.



(** Two more margins: a sale at 0.25 of an article that cost 0.20 has a
    margin just below 20, and draws the low-margin warning; a negative
    revenue has the margin 0, not 100 × profit / revenue. *)
Example margin_of_a_fifth :
  ∃ m, metrics quarter_shop "asha" = Some m
       ∧ profit_margin m = 19.999999999999996%float
       ∧ contains low_margin_warning (insights_of quarter_shop "asha").
Proof.
  eexists. split; [vm_compute; reflexivity |].
  split; vm_compute; reflexivity.
Qed.

Example margin_of_negative_revenue :
  ∃ m, metrics refund_shop "asha" = Some m
       ∧ total_revenue m = (-10)%float
       ∧ total_profit m = (-10)%float
       ∧ profit_margin m = 0%float.
Proof.
  eexists. split; [vm_compute; reflexivity |]. by repeat split.
Qed.

Lemma total_cost_is_not_returned_witness :
  get_user_data (sales_files three_shop) "asha" "sales" ≠ []
  ∧ ∃ m, metrics three_shop "asha" = Some m
         ∧ dict_get "total_cost" (metrics_items m) = None
         ∧ total_profit m = 1%float.
Proof.
  assert (Hsales : get_user_data (sales_files three_shop) "asha" "sales" ≠ [])
    by nonempty_sales.
  split; [exact Hsales |].
  destruct (total_cost_is_not_returned sequential_sum sequential_sum
              three_shop "asha" Hsales)
    as (m & Hm & _ & Habsent & Hprofit).
  exists m. split; [exact Hm |]. split; [exact Habsent |].
  rewrite Hprofit. vm_compute in Hm. injection Hm as <-. vm_compute. reflexivity.
Defined.

(** C3 as stated fails: the returned dictionary has no [total_cost] entry
    at all. *)
Lemma total_cost_field_counterexample :
  ¬ ∃ m v, metrics three_shop "asha" = Some m
           ∧ dict_get "total_cost" (metrics_items m) = Some v.
Proof.
  intros (m & v & Hm & Hget).
  vm_compute in Hm. injection Hm as <-. discriminate Hget.
Qed.

End Binary64Facts.
